(** * The WebSocket connection manager of the sales-engagement platform

    Shallow embedding of [app/services/websocket_manager.py]
    (class [WebSocketConnectionManager]) and of the receive loop of
    [app/api/v1/websocket.py] ([websocket_endpoint]).

    Modelling choices:
    - the manager's attributes are the fields of the record [Manager];
      the Python dicts are stdpp [gmap]s and the Python sets are [gset]s;
      [defaultdict(set)] indexing is [dd_get] / an explicit insert of the
      (possibly new, possibly empty) set, exactly where the source indexes;
    - a coroutine of the manager is a state-and-exception computation
      [M A := Manager -> Manager * Result A]: a raised exception keeps the
      mutations done before it, as in Python;
    - a websocket is a handle ([nat]); whether [send_text] on a handle
      raises is the parameter [send_raises]; whether a Redis call on a key
      raises is the parameter [redis_raises];
    - asyncio tasks of the Redis bridge are entries of [tasks] with a
      status; the end of a task (its [finally] block) is an event
      [task_exit] of the scheduler, see [Event] at the end;
    - datetimes are seconds ([Z]); a [uuid.UUID] tenant id is a [Z],
      rendered by [str()] as [pretty];
    - pydantic's validation of a [datetime], an [int] or a [uuid.UUID]
      field from a decoded JSON value is taken as given ([Validators]);
      every theorem holds for all of them;
    - a channel is the decoded JSON value the client sent; the dicts and
      lists of the manager only ever use it as a dict key ([ChanKey]). *)

From Stdlib Require Import ZArith List String.
From stdpp Require Import base gmap strings list pretty.
Import ListNotations.

Local Set Warnings "-register-all".

Local Open Scope string_scope.
Local Open Scope list_scope.

(** ** Messages ([app/schemas/websocket.py]) *)

Inductive WebSocketMessageType :=
  | CONNECT | DISCONNECT | SUBSCRIBE | UNSUBSCRIBE
  | NOTIFICATION | HEARTBEAT | ERROR | ACK.

(** The value of a JSON document, as [json.loads] returns it. *)
Inductive JVal :=
  | JNull
  | JBool (b : bool)
  | JNum (z : Z)
  | JStr (s : string)
  | JArr (l : list JVal)
  | JObj (kvs : list (string * JVal)).

(** A Python dict key made from a decoded JSON value: [None], a string
    or an integer ([True] and [False] compare and hash as [1] and [0]).
    A channel given as a string is the key [KStr], a coercion. *)
Inductive ChanKey := KNone | KStr (s : string) | KInt (z : Z).

Coercion KStr : string >-> ChanKey.

#[global] Instance ChanKey_eq_dec : EqDecision ChanKey.
Proof. solve_decision. Defined.

#[global] Instance ChanKey_countable : Countable ChanKey.
Proof.
  apply (inj_countable'
    (fun k => match k with
              | KNone => None | KStr s => Some (inl s) | KInt z => Some (inr z)
              end)
    (fun o => match o with
              | None => KNone | Some (inl s) => KStr s | Some (inr z) => KInt z
              end)).
  intros []; reflexivity.
Defined.

(** [==] on dict keys. *)
Definition chan_key_eqb (x y : ChanKey) : bool := bool_decide (x = y).

(** The dict key of a decoded JSON value; lists and objects are
    unhashable: indexing a dict with them raises [TypeError]. *)
Definition chan_key (v : JVal) : option ChanKey :=
  match v with
  | JNull => Some KNone
  | JBool b => Some (KInt (if b then 1 else 0)%Z)
  | JNum z => Some (KInt z)
  | JStr s => Some (KStr s)
  | JArr _ | JObj _ => None
  end.

(** The leaf validators of pydantic, taken as given: does the validation
    of a [datetime], an [int] or a [uuid.UUID] field accept this decoded
    JSON value? *)
Record Validators := mkValidators {
  datetime_ok : JVal -> bool;
  int_ok : JVal -> bool;
  uuid_ok : JVal -> bool
}.

Record WebSocketMessage := mkMessage {
  msg_type : WebSocketMessageType;
  msg_data : list (string * JVal)
}.

Record WebSocketNotification := mkNotification {
  n_type : string;
  n_channel : string;
  n_data : list (string * JVal)
}.

(** [notification.dict()] (timestamp and optional ids left out). *)
Definition notification_dict (n : WebSocketNotification) : list (string * JVal) :=
  [("type", JStr (n_type n)); ("channel", JStr (n_channel n));
   ("data", JObj (n_data n))].

(** [WebSocketError(error_code=..., message=...).dict()] *)
Definition websocket_error_dict (error_code message : string) : list (string * JVal) :=
  [("error_code", JStr error_code); ("message", JStr message); ("details", JNull)].

Record ConnectionInfo := mkConnectionInfo {
  ci_connection_id : string;
  ci_user_id : Z;
  ci_tenant_id : Z;
  ci_connected_at : Z;
  ci_last_heartbeat : Z;
  (** [List[str]] in the schema, but [append(channel)] stores whatever
      channel the client sent; the list is only ever compared with [==]
      and used for dict keys, so it holds the keys. *)
  ci_subscriptions : list ChanKey
}.

Definition set_last_heartbeat (t : Z) (ci : ConnectionInfo) : ConnectionInfo :=
  mkConnectionInfo (ci_connection_id ci) (ci_user_id ci) (ci_tenant_id ci)
    (ci_connected_at ci) t (ci_subscriptions ci).

Definition set_subscriptions (l : list ChanKey) (ci : ConnectionInfo) : ConnectionInfo :=
  mkConnectionInfo (ci_connection_id ci) (ci_user_id ci) (ci_tenant_id ci)
    (ci_connected_at ci) (ci_last_heartbeat ci) l.

(** [list.remove(x)]: removes the first occurrence (the source only calls
    it after checking [x in l]). *)
Fixpoint list_remove (x : ChanKey) (l : list ChanKey) : list ChanKey :=
  match l with
  | [] => []
  | y :: l' => if chan_key_eqb x y then l' else y :: list_remove x l'
  end.

(** ** Manager state *)

(** Status of an asyncio task: running, cancel requested but not yet
    processed ([done()] is still false), or finished. *)
Inductive TaskStatus := Running | Cancelling | Finished.

Record Task := mkTask { task_channel : ChanKey; task_status : TaskStatus }.

#[projections(primitive)]
Record Manager := mkManager {
  active_connections : gmap string nat;
  connection_info : gmap string ConnectionInfo;
  user_connections : gmap Z (gset string);
  tenant_connections : gmap Z (gset string);
  channel_subscriptions : gmap ChanKey (gset string);
  redis_tasks : gmap ChanKey nat;
  tasks : gmap nat Task;
  next_task : nat;
  redis_keys : gset string;
  sent : list (nat * WebSocketMessage)
}.

Definition empty_manager : Manager :=
  mkManager ∅ ∅ ∅ ∅ ∅ ∅ ∅ 0 ∅ [].

Definition upd_active f s := mkManager (f (active_connections s)) (connection_info s)
  (user_connections s) (tenant_connections s) (channel_subscriptions s)
  (redis_tasks s) (tasks s) (next_task s) (redis_keys s) (sent s).
Definition upd_info f s := mkManager (active_connections s) (f (connection_info s))
  (user_connections s) (tenant_connections s) (channel_subscriptions s)
  (redis_tasks s) (tasks s) (next_task s) (redis_keys s) (sent s).
Definition upd_users f s := mkManager (active_connections s) (connection_info s)
  (f (user_connections s)) (tenant_connections s) (channel_subscriptions s)
  (redis_tasks s) (tasks s) (next_task s) (redis_keys s) (sent s).
Definition upd_tenants f s := mkManager (active_connections s) (connection_info s)
  (user_connections s) (f (tenant_connections s)) (channel_subscriptions s)
  (redis_tasks s) (tasks s) (next_task s) (redis_keys s) (sent s).
Definition upd_channels f s := mkManager (active_connections s) (connection_info s)
  (user_connections s) (tenant_connections s) (f (channel_subscriptions s))
  (redis_tasks s) (tasks s) (next_task s) (redis_keys s) (sent s).
Definition upd_redis_tasks f s := mkManager (active_connections s) (connection_info s)
  (user_connections s) (tenant_connections s) (channel_subscriptions s)
  (f (redis_tasks s)) (tasks s) (next_task s) (redis_keys s) (sent s).
Definition upd_tasks f s := mkManager (active_connections s) (connection_info s)
  (user_connections s) (tenant_connections s) (channel_subscriptions s)
  (redis_tasks s) (f (tasks s)) (next_task s) (redis_keys s) (sent s).
Definition upd_next_task f s := mkManager (active_connections s) (connection_info s)
  (user_connections s) (tenant_connections s) (channel_subscriptions s)
  (redis_tasks s) (tasks s) (f (next_task s)) (redis_keys s) (sent s).
Definition upd_redis_keys f s := mkManager (active_connections s) (connection_info s)
  (user_connections s) (tenant_connections s) (channel_subscriptions s)
  (redis_tasks s) (tasks s) (next_task s) (f (redis_keys s)) (sent s).
Definition upd_sent f s := mkManager (active_connections s) (connection_info s)
  (user_connections s) (tenant_connections s) (channel_subscriptions s)
  (redis_tasks s) (tasks s) (next_task s) (redis_keys s) (f (sent s)).

(** [d[k]] on a [defaultdict(set)], read only. *)
Definition dd_get {K} `{Countable K} (m : gmap K (gset string)) (k : K) : gset string :=
  default ∅ (m !! k).

(** ** The state-and-exception monad of the coroutines *)

Inductive Exn := TransportError | RedisError | ValidationError | TypeError.

Inductive Result (A : Type) := Ok (a : A) | Raised (e : Exn).
Arguments Ok {A} a.
Arguments Raised {A} e.

Definition M (A : Type) : Type := Manager -> Manager * Result A.

Definition ret {A} (a : A) : M A := fun s => (s, Ok a).
Definition bind {A B} (m : M A) (k : A -> M B) : M B := fun s =>
  match m s with
  | (s', Ok a) => k a s'
  | (s', Raised e) => (s', Raised e)
  end.
Definition raise {A} (e : Exn) : M A := fun s => (s, Raised e).
(** [try: m except Exception as e: h(e)] *)
Definition try_except {A} (m : M A) (h : Exn -> M A) : M A := fun s =>
  match m s with
  | (s', Ok a) => (s', Ok a)
  | (s', Raised e) => h e s'
  end.
Definition get : M Manager := fun s => (s, Ok s).
Definition modify (f : Manager -> Manager) : M unit := fun s => (f s, Ok tt).

Notation "x <- m ;; k" := (bind m (fun x => k))
  (at level 100, m at next level, right associativity).
Notation "m ;;; k" := (bind m (fun _ => k)) (at level 100, right associativity).

(** [for x in l: await f(x)] *)
Fixpoint for_each {A} (l : list A) (f : A -> M unit) : M unit :=
  match l with
  | [] => ret tt
  | x :: l' => f x ;;; for_each l' f
  end.

(** ** [WebSocketConnectionManager] *)

Section Manager_ops.

(** Does [await websocket.send_text(...)] raise on this websocket? *)
Variable send_raises : nat -> bool.
(** Does a Redis call on this key raise? *)
Variable redis_raises : string -> bool.
(** pydantic's leaf validators. *)
Variable pv : Validators.

Definition websocket_send_text (h : nat) (m : WebSocketMessage) : M unit :=
  if send_raises h then raise TransportError
  else modify (upd_sent (fun l => l ++ [(h, m)])).

Definition redis_set (key : string) : M unit :=
  if redis_raises key then raise RedisError
  else modify (upd_redis_keys (fun ks => {[key]} ∪ ks)).

Definition redis_delete (key : string) : M unit :=
  if redis_raises key then raise RedisError
  else modify (upd_redis_keys (fun ks => ks ∖ {[key]})).

(** [RedisClient._get_tenant_key]: [f"tenant:{tenant_id}:{key}"], with the
    tenant id (a UUID in the code, a number here) in its text form. *)
Definition get_tenant_key (tenant_id : Z) (key : string) : string :=
  "tenant:" +:+ pretty tenant_id +:+ ":" +:+ key.

(** [RedisClient.set(key, value, tenant_id=tenant_id, ttl=...)]: a
    [uuid.UUID] is always truthy, so the key is always prefixed. *)
Definition redis_client_set (key : string) (tenant_id : Z) : M unit :=
  redis_set (get_tenant_key tenant_id key).

(** [_store_connection_in_redis] *)
Definition store_connection_in_redis (ci : ConnectionInfo) : M unit :=
  try_except (redis_client_set ("ws_connection:" +:+ ci_connection_id ci) (ci_tenant_id ci))
    (fun _ => ret tt).

(** [_remove_connection_from_redis]: [redis_client.redis.delete(key)], on
    the raw client, without the tenant prefix. *)
Definition remove_connection_from_redis (c : string) : M unit :=
  try_except (redis_delete ("ws_connection:" +:+ c)) (fun _ => ret tt).

(** [d[k].add(c)], [d[k].discard(c)] on a [defaultdict(set)] (both create
    the entry [k] when it is missing), and
    [if not d[k]: del d[k]]. *)
Definition add_index {K} `{Countable K} (k : K) (c : string)
    (m : gmap K (gset string)) : gmap K (gset string) :=
  <[k := dd_get m k ∪ {[c]}]> m.
Definition discard_index {K} `{Countable K} (k : K) (c : string)
    (m : gmap K (gset string)) : gmap K (gset string) :=
  <[k := dd_get m k ∖ {[c]}]> m.
Definition prune_index {K} `{Countable K} (k : K)
    (m : gmap K (gset string)) : gmap K (gset string) :=
  if decide (dd_get m k = ∅) then delete k m else m.

(** [disconnect] *)
Definition disconnect (c : string) : M unit :=
  s <- get ;;
  match active_connections s !! c with
  | None => ret tt
  | Some _ =>
      match connection_info s !! c with
      | Some ci =>
          modify (upd_users (discard_index (ci_user_id ci) c)) ;;;
          modify (upd_tenants (discard_index (ci_tenant_id ci) c)) ;;;
          for_each (ci_subscriptions ci)
            (fun ch => modify (upd_channels (discard_index ch c))) ;;;
          modify (upd_users (prune_index (ci_user_id ci))) ;;;
          modify (upd_tenants (prune_index (ci_tenant_id ci)))
      | None => ret tt
      end ;;;
      modify (upd_active (delete c)) ;;;
      modify (upd_info (delete c)) ;;;
      remove_connection_from_redis c
  end.

(** [_send_to_connection] *)
Definition send_to_connection (c : string) (m : WebSocketMessage) : M bool :=
  s <- get ;;
  match active_connections s !! c with
  | None => ret false
  | Some h =>
      try_except (websocket_send_text h m ;;; ret true)
        (fun _ => disconnect c ;;; ret false)
  end.

(** [_send_error] *)
Definition send_error (c error_code message : string) : M unit :=
  send_to_connection c (mkMessage ERROR (websocket_error_dict error_code message)) ;;;
  ret tt.

(** *** The Redis bridge: one asyncio task per channel *)

Definition task_done (s : Manager) (t : nat) : bool :=
  match tasks s !! t with
  | Some tk => match task_status tk with Finished => true | _ => false end
  | None => true
  end.

(** [asyncio.create_task(self._redis_subscription_handler(channel))] *)
Definition create_task (ch : ChanKey) : M nat := fun s =>
  (upd_next_task S (upd_tasks (<[next_task s := mkTask ch Running]>) s),
   Ok (next_task s)).

(** [_ensure_redis_subscription] *)
Definition ensure_redis_subscription (ch : ChanKey) : M unit :=
  s <- get ;;
  let start := match redis_tasks s !! ch with
               | None => true
               | Some t => task_done s t
               end in
  if start then t <- create_task ch ;; modify (upd_redis_tasks (<[ch := t]>))
  else ret tt.

(** [task.cancel()]: only requests the cancellation of a task that has
    not finished; the task runs its [finally] block later. *)
Definition cancel_task (t : nat) (s : Manager) : Manager :=
  upd_tasks (alter (fun tk => match task_status tk with
                              | Running => mkTask (task_channel tk) Cancelling
                              | _ => tk
                              end) t) s.

(** [_stop_redis_subscription] *)
Definition stop_redis_subscription (ch : ChanKey) : M unit :=
  s <- get ;;
  match redis_tasks s !! ch with
  | Some t => modify (cancel_task t) ;;; modify (upd_redis_tasks (delete ch))
  | None => ret tt
  end.

(** The end of the task [t] running [_redis_subscription_handler(channel)]
    (cancelled, or its subscription failed or ended): the task finishes and
    its [finally] block runs
    [if channel in self.redis_tasks: del self.redis_tasks[channel]]. *)
Definition redis_subscription_handler_exit (t : nat) (s : Manager) : Manager :=
  match tasks s !! t with
  | Some tk =>
      match task_status tk with
      | Finished => s
      | _ => upd_redis_tasks (delete (task_channel tk))
               (upd_tasks (<[t := mkTask (task_channel tk) Finished]>) s)
      end
  | None => s
  end.

(** *** Subscriptions *)

(** The acknowledgement carries the channel as the client sent it. *)
Definition ack_message (action : string) (ch : JVal) : WebSocketMessage :=
  mkMessage ACK [("action", JStr action); ("channel", ch); ("status", JStr "success")].

(** [subscribe_to_channel]: [self.channel_subscriptions[channel]] raises
    [TypeError] on an unhashable channel, before any change. *)
Definition subscribe_to_channel (c : string) (ch : JVal) : M bool :=
  s <- get ;;
  match connection_info s !! c with
  | None => ret false
  | Some ci =>
      match chan_key ch with
      | None => raise TypeError
      | Some k =>
          modify (upd_channels (add_index k c)) ;;;
          modify (upd_info (<[c := set_subscriptions (ci_subscriptions ci ++ [k]) ci]>)) ;;;
          ensure_redis_subscription k ;;;
          send_to_connection c (ack_message "subscribe" ch) ;;;
          ret true
      end
  end.

(** [unsubscribe_from_channel] *)
Definition unsubscribe_from_channel (c : string) (ch : JVal) : M bool :=
  s <- get ;;
  match connection_info s !! c with
  | None => ret false
  | Some ci =>
      match chan_key ch with
      | None => raise TypeError
      | Some k =>
          modify (upd_channels (discard_index k c)) ;;;
          (if existsb (chan_key_eqb k) (ci_subscriptions ci)
           then modify (upd_info (<[c := set_subscriptions
                                          (list_remove k (ci_subscriptions ci)) ci]>))
           else ret tt) ;;;
          s1 <- get ;;
          (if decide (dd_get (channel_subscriptions s1) k = ∅)
           then stop_redis_subscription k ;;; modify (upd_channels (delete k))
           else ret tt) ;;;
          send_to_connection c (ack_message "unsubscribe" ch) ;;;
          ret true
      end
  end.


(** *** Connections *)

(** [f"{user_id}_{uuid.uuid4().hex[:8]}"]; the random suffix is an input. *)
Definition connection_id_of (user_id : Z) (suffix : string) : string :=
  pretty user_id +:+ "_" +:+ suffix.

(** The CONNECT acknowledgement sent by [connect]. *)
Definition connect_ack_message (c : string) (user_id tenant_id : Z) : WebSocketMessage :=
  mkMessage CONNECT [("connection_id", JStr c); ("user_id", JNum user_id);
                     ("tenant_id", JStr (pretty tenant_id));
                     ("status", JStr "connected")].

(** [connect].  [await self._ensure_initialized()] (which only spawns the
    heartbeat monitor, see [heartbeat_scan]) and [await websocket.accept()]
    (the transport handshake) are left out; [str(tenant_id)] is rendered
    with [pretty]. *)
Definition connect (h : nat) (user_id tenant_id : Z) (suffix : string) (now : Z)
    : M string :=
  let c := connection_id_of user_id suffix in
  let ci := mkConnectionInfo c user_id tenant_id now now [] in
  modify (upd_active (<[c := h]>)) ;;;
  modify (upd_info (<[c := ci]>)) ;;;
  modify (upd_users (add_index user_id c)) ;;;
  modify (upd_tenants (add_index tenant_id c)) ;;;
  store_connection_in_redis ci ;;;
  send_to_connection c (connect_ack_message c user_id tenant_id) ;;;
  ret c.

(** [_handle_heartbeat] *)
Definition handle_heartbeat (c : string) (now : Z) : M unit :=
  s <- get ;;
  match connection_info s !! c with
  | Some ci =>
      modify (upd_info (<[c := set_last_heartbeat now ci]>)) ;;;
      send_to_connection c (mkMessage HEARTBEAT [("status", JStr "alive")]) ;;;
      ret tt
  | None => ret tt
  end.

(** *** Fan-out *)

Definition notification_message (n : WebSocketNotification) : WebSocketMessage :=
  mkMessage NOTIFICATION (notification_dict n).

(** [for connection_id in connection_ids.copy():
         await self._send_to_connection(connection_id, message)] *)
Definition send_to_all (ids : gset string) (m : WebSocketMessage) : M unit :=
  for_each (elements ids) (fun c => send_to_connection c m ;;; ret tt).

(** [send_to_user], [send_to_tenant], [send_to_channel]: the id set is read
    with [.get(key, set())], which adds no entry. *)
Definition send_to_user (user_id : Z) (n : WebSocketNotification) : M unit :=
  s <- get ;; send_to_all (dd_get (user_connections s) user_id) (notification_message n).

Definition send_to_tenant (tenant_id : Z) (n : WebSocketNotification) : M unit :=
  s <- get ;; send_to_all (dd_get (tenant_connections s) tenant_id) (notification_message n).

(** [send_to_channel] is called by the bus listener with the channel it
    was started for, a hashable value: its dict key [ch]. *)
Definition send_to_channel (ch : ChanKey) (n : WebSocketNotification) : M unit :=
  s <- get ;; send_to_all (dd_get (channel_subscriptions s) ch) (notification_message n).

(** *** Inbound frames *)

(** [d.get(k)] on a dict decoded by [json.loads] (the last duplicate key
    wins). *)
Definition dict_get (k : string) (kvs : list (string * JVal)) : option JVal :=
  fold_left (fun acc kv => if String.eqb k (fst kv) then Some (snd kv) else acc) kvs None.

Definition message_type_of_string (t : string) : option WebSocketMessageType :=
  if String.eqb t "connect" then Some CONNECT
  else if String.eqb t "disconnect" then Some DISCONNECT
  else if String.eqb t "subscribe" then Some SUBSCRIBE
  else if String.eqb t "unsubscribe" then Some UNSUBSCRIBE
  else if String.eqb t "notification" then Some NOTIFICATION
  else if String.eqb t "heartbeat" then Some HEARTBEAT
  else if String.eqb t "error" then Some ERROR
  else if String.eqb t "ack" then Some ACK
  else None.

(** A field [Optional[...]]: absent (the default) or [None] is valid,
    any other value goes to [check]. *)
Definition optional_ok (check : JVal -> bool) (v : option JVal) : bool :=
  match v with
  | None | Some JNull => true
  | Some w => check w
  end.

(** [message_id: Optional[str]]: pydantic v2 turns no other value into a
    string. *)
Definition optional_str_ok (w : JVal) : bool :=
  match w with JStr _ => true | _ => false end.

(** [WebSocketMessage] built from the decoded frame as keyword arguments: a non-mapping raises [TypeError];
    otherwise every field is validated and any failure raises
    [ValidationError]: [type] must be one of the enum's values, [data]
    (default [{}]) an object, [timestamp] (default [utcnow()]) a valid
    [datetime], [message_id] (default [None]) [None] or a string.  Unknown
    keys are ignored. *)
Definition parse_message (v : JVal) : M WebSocketMessage :=
  match v with
  | JObj kvs =>
      let ty := match dict_get "type" kvs with
                | Some (JStr t) => message_type_of_string t
                | _ => None
                end in
      let data := match dict_get "data" kvs with
                  | None => Some []
                  | Some (JObj d) => Some d
                  | Some _ => None
                  end in
      let timestamp_ok := match dict_get "timestamp" kvs with
                          | None => true
                          | Some w => datetime_ok pv w
                          end in
      let message_id_ok := optional_ok optional_str_ok (dict_get "message_id" kvs) in
      match ty, data with
      | Some ty, Some d =>
          if timestamp_ok && message_id_ok then ret (mkMessage ty d)
          else raise ValidationError
      | _, _ => raise ValidationError
      end
  | _ => raise TypeError
  end.

(** Python truthiness of a decoded JSON value. *)
Definition truthy (v : JVal) : bool :=
  match v with
  | JNull => false
  | JBool b => b
  | JNum z => negb (Z.eqb z 0)
  | JStr s => negb (String.eqb s "")
  | JArr l => negb (Nat.eqb (length l) 0)
  | JObj kvs => negb (Nat.eqb (length kvs) 0)
  end.

(** [channel = message.data.get("channel"); if channel: await f(c, channel)] *)
Definition channel_action (f : string -> JVal -> M bool) (c : string)
    (v : option JVal) : M unit :=
  match v with
  | Some ch => if truthy ch then f c ch ;;; ret tt else ret tt
  | None => ret tt
  end.

Definition exn_message (e : Exn) : string :=
  match e with
  | TransportError => "transport error"
  | RedisError => "redis error"
  | ValidationError => "validation error"
  | TypeError => "type error"
  end.

(** [handle_message] *)
Definition handle_message (c : string) (v : JVal) (now : Z) : M unit :=
  try_except
    (msg <- parse_message v ;;
     match msg_type msg with
     | SUBSCRIBE => channel_action subscribe_to_channel c (dict_get "channel" (msg_data msg))
     | UNSUBSCRIBE => channel_action unsubscribe_from_channel c (dict_get "channel" (msg_data msg))
     | HEARTBEAT => handle_heartbeat c now
     | _ => ret tt
     end)
    (fun e => send_error c "message_error" (exn_message e)).

(** One iteration of the receive loop of [websocket_endpoint]: [frame] is
    the result of [json.loads(data)], [None] when it raises
    [json.JSONDecodeError]. *)
Definition endpoint_receive (c : string) (frame : option JVal) (now : Z) : M unit :=
  match frame with
  | None => send_error c "invalid_json" "Invalid JSON format"
  | Some v => try_except (handle_message c v now)
                (fun e => send_error c "message_error" (exn_message e))
  end.

(** The set-up part of [websocket_endpoint] after authentication: [connect],
    the two auto-subscriptions and the queued offline notifications (the
    list returned by [NotificationService.get_offline_notifications]). *)
Definition endpoint_open (h : nat) (user_id tenant_id : Z) (suffix : string)
    (now : Z) (offline : list JVal) : M string :=
  c <- connect h user_id tenant_id suffix now ;;
  subscribe_to_channel c (JStr ("user:" +:+ pretty user_id +:+ ":notifications")) ;;;
  subscribe_to_channel c (JStr "tenant:broadcast") ;;;
  for_each offline (fun n =>
    send_to_connection c (mkMessage NOTIFICATION
      [("type", JStr "offline_notification"); ("data", n)]) ;;; ret tt) ;;;
  ret c.

(** *** Heartbeat monitor *)

Definition heartbeat_timeout : Z := 120.

Definition timed_out (threshold : Z) (s : Manager) : list string :=
  map fst (List.filter (fun kv => Z.ltb (ci_last_heartbeat (snd kv)) threshold)
             (map_to_list (connection_info s))).

(** One pass of the [while True] loop of [_heartbeat_monitor], after the
    sleep: collect the timed-out ids, then disconnect them, all in one
    [try ... except Exception]. *)
Definition heartbeat_scan (now : Z) : M unit :=
  try_except
    (s <- get ;;
     let threshold := (now - heartbeat_timeout)%Z in
     for_each (timed_out threshold s) (fun c => disconnect c))
    (fun _ => ret tt).

(** *** Scheduler events *)

Inductive Event :=
  | EvOpen (h : nat) (user_id tenant_id : Z) (suffix : string) (now : Z)
  | EvFrame (c : string) (frame : option JVal) (now : Z)
  | EvClose (c : string)
  | EvHeartbeatScan (now : Z)
  | EvTaskExit (t : nat).

Definition step (ev : Event) (s : Manager) : Manager :=
  match ev with
  | EvOpen h u t suffix now => fst (endpoint_open h u t suffix now [] s)
  | EvFrame c frame now => fst (endpoint_receive c frame now s)
  | EvClose c => fst (disconnect c s)
  | EvHeartbeatScan now => fst (heartbeat_scan now s)
  | EvTaskExit t => redis_subscription_handler_exit t s
  end.

Definition run_events (evs : list Event) (s : Manager) : Manager :=
  fold_left (fun s ev => step ev s) evs s.

End Manager_ops.

(** ** Properties stated by the specification, as predicates on states *)

(** A transport and a Redis store that never raise. *)
Definition never_raises_nat : nat -> bool := fun _ => false.
Definition never_raises_key : string -> bool := fun _ => false.

(** Registry invariant, channel part: a registered connection is in the
    index set of channel [ch] iff [ch] is in its subscriptions. *)
Definition subscriptions_match_index (s : Manager) : Prop :=
  forall c ci ch, connection_info s !! c = Some ci ->
    (c ∈ dd_get (channel_subscriptions s) ch <-> In ch (ci_subscriptions ci)).

(** No index maps a key to the empty set. *)
Definition no_empty_index_entry (s : Manager) : Prop :=
  forall k (X : gset string),
    (user_connections s !! k = Some X -> X ≠ ∅) /\
    (tenant_connections s !! k = Some X -> X ≠ ∅) /\
    (forall ch, channel_subscriptions s !! ch = Some X -> X ≠ ∅).

(** At most one running bus-listener task per channel. *)
Definition at_most_one_listener (s : Manager) : Prop :=
  forall t1 t2 ch, tasks s !! t1 = Some (mkTask ch Running) ->
    tasks s !! t2 = Some (mkTask ch Running) -> t1 = t2.

(** Fan-out to the snapshot [ids] of the message [m] from state [s], with
    outcome [res], isolates transport failures: no exception reaches the
    caller; a snapshot id whose send raises is torn down; a snapshot id
    whose send succeeds received [m]; every connection whose send
    succeeds stays registered. *)
Definition fan_out_isolated (send_raises : nat -> bool) (ids : gset string)
    (m : WebSocketMessage) (s : Manager) (res : Manager * Result unit) : Prop :=
  snd res = Ok tt /\
  forall c h, active_connections s !! c = Some h ->
    (c ∈ ids -> send_raises h = true ->
       active_connections (fst res) !! c = None /\
       connection_info (fst res) !! c = None) /\
    (c ∈ ids -> send_raises h = false -> In (h, m) (sent (fst res))) /\
    (send_raises h = false -> active_connections (fst res) !! c = Some h).

(** ** Scenarios *)

Definition subscribe_frame (ch : string) : option JVal :=
  Some (JObj [("type", JStr "subscribe"); ("data", JObj [("channel", JStr ch)])]).
Definition unsubscribe_frame (ch : string) : option JVal :=
  Some (JObj [("type", JStr "unsubscribe"); ("data", JObj [("channel", JStr ch)])]).

(** User 1 of tenant 7 opens connection ["1_aaaaaaaa"] on websocket 10. *)
Definition open_a : Event := EvOpen 10 1 7 "aaaaaaaa" 0.
(** User 2 of tenant 7 opens connection ["2_bbbbbbbb"] on websocket 11. *)
Definition open_b : Event := EvOpen 11 2 7 "bbbbbbbb" 0.

(** The client subscribes again to the auto-subscribed ["tenant:broadcast"],
    then unsubscribes from it once. *)
Definition duplicate_subscribe_run (pv : Validators) : Manager :=
  run_events never_raises_nat never_raises_key pv
    [open_a; EvFrame "1_aaaaaaaa" (subscribe_frame "tenant:broadcast") 1;
     EvFrame "1_aaaaaaaa" (unsubscribe_frame "tenant:broadcast") 2]
    empty_manager.

(** The state after [open_a]. *)
Definition opened_a : Manager :=
  fst (endpoint_open never_raises_nat never_raises_key 10 1 7 "aaaaaaaa" 0 [] empty_manager).

(** A connection opens (with its two auto-subscriptions) and closes. *)
Definition open_close_run : Manager :=
  fst (disconnect never_raises_key "1_aaaaaaaa" opened_a).

(** A connection opens at time 0 and never sends a heartbeat; the monitor
    scans at time 200. *)
Definition open_timeout_run : Manager :=
  fst (heartbeat_scan never_raises_key 200 opened_a).

(** A unsubscribes as the last subscriber of ["deals"] (task 3 is
    cancelled), B subscribes to ["deals"] before task 3 has processed its
    cancellation (task 4 starts), task 3 then ends, and A subscribes
    again (task 5 starts). *)
Definition resubscribe_race_run (pv : Validators) : Manager :=
  run_events never_raises_nat never_raises_key pv
    [open_a; open_b;
     EvFrame "1_aaaaaaaa" (subscribe_frame "deals") 1;
     EvFrame "1_aaaaaaaa" (unsubscribe_frame "deals") 2;
     EvFrame "2_bbbbbbbb" (subscribe_frame "deals") 3;
     EvTaskExit 3;
     EvFrame "1_aaaaaaaa" (subscribe_frame "deals") 4]
    empty_manager.

(** ** Further operations of the manager and of the endpoints *)

(** [get_connection_stats] (served by [GET /ws/stats]). *)
Record ConnectionStats := mkConnectionStats {
  total_connections : nat;
  users_connected : nat;
  tenants_active : nat;
  active_channels : nat;
  redis_subscriptions : nat
}.

Definition get_connection_stats (s : Manager) : ConnectionStats :=
  mkConnectionStats (size (active_connections s)) (size (user_connections s))
    (size (tenant_connections s)) (size (channel_subscriptions s))
    (size (redis_tasks s)).

(** The answer of [broadcast_to_tenant]: the success body, or the
    [HTTPException] with status 400 (its [detail], [str(e)], is not
    modelled). *)
Inductive BroadcastResponse := BroadcastSent | BadRequest.

Section Further_ops.

Variable send_raises : nat -> bool.
Variable redis_raises : string -> bool.
(** [uuid.UUID(s)]: [None] when it raises [ValueError]. *)
Variable uuid_of_string : string -> option Z.
(** pydantic's leaf validators. *)
Variable pv : Validators.

(** [WebSocketNotification] built from the decoded bus message as keyword arguments: a non-mapping raises
    [TypeError]; otherwise every field is validated and any failure raises
    [ValidationError]: the required [type] and [channel] must be strings
    and [data] an object; [timestamp] (default [utcnow()]) must be a valid
    [datetime], [user_id] and [tenant_id] (default [None]) [None] or a
    valid [int] and [uuid.UUID].  Unknown keys are ignored. *)
Definition parse_notification (v : JVal) : M WebSocketNotification :=
  match v with
  | JObj kvs =>
      let timestamp_ok := match dict_get "timestamp" kvs with
                          | None => true
                          | Some w => datetime_ok pv w
                          end in
      let ids_ok := optional_ok (int_ok pv) (dict_get "user_id" kvs) &&
                    optional_ok (uuid_ok pv) (dict_get "tenant_id" kvs) in
      match dict_get "type" kvs, dict_get "channel" kvs, dict_get "data" kvs with
      | Some (JStr t), Some (JStr ch), Some (JObj d) =>
          if timestamp_ok && ids_ok then ret (mkNotification t ch d)
          else raise ValidationError
      | _, _, _ => raise ValidationError
      end
  | _ => raise TypeError
  end.

(** The body of [async for message in pubsub.listen()] in
    [_redis_subscription_handler(channel)], for one bus message of type
    [ptype]; [data] is the result of [json.loads(message['data'])],
    [None] when it raises (a [ValueError]; the inner
    [except Exception] catches every exception alike).  [channel] is the
    dict key of the channel the listener was started for. *)
Definition redis_message_received (channel : ChanKey) (ptype : string) (data : option JVal)
    : M unit :=
  if String.eqb ptype "message" then
    try_except
      (v <- match data with Some v => ret v | None => raise ValidationError end ;;
       notification <- parse_notification v ;;
       send_to_channel send_raises redis_raises channel notification)
      (fun _ => ret tt)
  else ret tt.

(** [broadcast_to_tenant] ([POST /ws/broadcast/{tenant_id}]). *)
Definition broadcast_to_tenant (tenant_id : string) (message : list (string * JVal))
    : M BroadcastResponse :=
  try_except
    (match uuid_of_string tenant_id with
     | None => raise ValidationError
     | Some t =>
         send_to_tenant send_raises redis_raises t
           (mkNotification "admin_broadcast" "tenant:broadcast" message) ;;;
         ret BroadcastSent
     end)
    (fun _ => ret BadRequest).

End Further_ops.

(** ** Invariants kept by the code *)

(** No key of the index maps to the empty set. *)
Definition no_empty_entry {K} `{Countable K} (m : gmap K (gset string)) : Prop :=
  forall k X, m !! k = Some X -> X ≠ ∅.

(** [active_connections] and [connection_info] have the same keys, and the
    user and tenant indexes hold no empty set. *)
Definition registry_ok (s : Manager) : Prop :=
  (forall c, is_Some (active_connections s !! c) <-> is_Some (connection_info s !! c)) /\
  no_empty_entry (user_connections s) /\ no_empty_entry (tenant_connections s).

(** [m] keeps [registry_ok], whether it returns or raises. *)
Definition preserves {A} (m : M A) : Prop :=
  forall s, registry_ok s -> registry_ok (fst (m s)).

(** The message of one queued offline notification, as [websocket_endpoint]
    sends it. *)
Definition offline_message (n : JVal) : WebSocketMessage :=
  mkMessage NOTIFICATION [("type", JStr "offline_notification"); ("data", n)].

(** Users 1 and 2 of tenant 7 have both opened a connection: both are
    subscribed to ["tenant:broadcast"]. *)
Definition opened_a_b : Manager :=
  fst (endpoint_open never_raises_nat never_raises_key 11 2 7 "bbbbbbbb" 0 [] opened_a).

(** Validators for the examples: a [datetime] or an [int] is a JSON
    number, a UUID a string of 36 characters. *)
Definition sample_validators : Validators :=
  mkValidators (fun w => match w with JNum _ => true | _ => false end)
               (fun w => match w with JNum _ => true | _ => false end)
               (fun w => match w with JStr u => Nat.eqb (String.length u) 36 | _ => false end).

(** A [uuid.UUID] parser that accepts only the text ["7"]. *)
Definition uuid_only_7 (s : string) : option Z :=
  if String.eqb s "7" then Some 7%Z else None.

(** ** Claims checked on concrete runs *)

(** C1: the registry invariant "a registered connection is in the index
    set of channel X iff X is in its subscriptions" fails after the client
    subscribes again to an auto-subscribed channel and then unsubscribes
    from it once: [subscriptions] is a list that records the channel twice
    and loses one copy, while the index set is emptied and pruned.  The
    frames carry no [timestamp] nor [message_id]: the run is the same
    whatever the validators. *)
Theorem C1_resubscribe_desyncs_channel_index (pv : Validators) :
  ~ subscriptions_match_index (duplicate_subscribe_run pv).
Proof.
  intros H.
  destruct (H "1_aaaaaaaa"
              (mkConnectionInfo "1_aaaaaaaa" 1 7 0 0
                 [KStr "user:1:notifications"; KStr "tenant:broadcast"])
              "tenant:broadcast") as [_ Hin].
  - vm_compute. reflexivity.
  - assert (Hnot : bool_decide ("1_aaaaaaaa" ∈ dd_get
              (channel_subscriptions (duplicate_subscribe_run pv)) "tenant:broadcast") = false)
      by (vm_compute; reflexivity).
    apply bool_decide_eq_false in Hnot. apply Hnot, Hin. simpl. auto.
Qed.

(** C2: after one connection opens (auto-subscribing to its two default
    channels) and disconnects, the channel index still maps both channels
    to the empty set: [disconnect] discards the id from each channel set
    but never prunes the emptied entries. *)
Theorem C2_disconnect_leaves_empty_channel_entries :
  ~ no_empty_index_entry open_close_run /\
  channel_subscriptions open_close_run !! KStr "tenant:broadcast" = Some ∅ /\
  channel_subscriptions open_close_run !! KStr "user:1:notifications" = Some ∅.
Proof.
  split; [| vm_compute; split; reflexivity].
  intros H. destruct (H 0%Z ∅) as [_ [_ Hc]].
  apply (Hc "tenant:broadcast"); [vm_compute; reflexivity | reflexivity].
Qed.

(** C3: neither an explicit [disconnect] nor the heartbeat eviction of the
    last subscriber of a channel stops the channel's bus listener: the
    channel index is empty while the task stays registered and running
    (it was never cancelled). *)
Theorem C3_disconnect_keeps_bus_listener :
  dd_get (channel_subscriptions open_close_run) "tenant:broadcast" = ∅ /\
  redis_tasks open_close_run !! KStr "tenant:broadcast" = Some 1 /\
  tasks open_close_run !! 1 = Some (mkTask "tenant:broadcast" Running) /\
  active_connections open_timeout_run = ∅ /\
  dd_get (channel_subscriptions open_timeout_run) "tenant:broadcast" = ∅ /\
  redis_tasks open_timeout_run !! KStr "tenant:broadcast" = Some 1 /\
  tasks open_timeout_run !! 1 = Some (mkTask "tenant:broadcast" Running).
Proof. vm_compute. repeat split. Qed.

(** C6: in the run [resubscribe_race_run] the [finally] block of the
    cancelled task 3 deletes [redis_tasks["deals"]], which by then is the
    entry of the new task 4; the next subscription to ["deals"] therefore
    starts task 5 while task 4 is still running: two listeners for one
    channel.  The run is the same whatever the validators. *)
Theorem C6_two_listeners_after_resubscribe_race (pv : Validators) :
  tasks (resubscribe_race_run pv) !! 4 = Some (mkTask "deals" Running) /\
  tasks (resubscribe_race_run pv) !! 5 = Some (mkTask "deals" Running) /\
  ~ at_most_one_listener (resubscribe_race_run pv).
Proof.
  split; [vm_compute; reflexivity |]. split; [vm_compute; reflexivity |].
  intros H.
  assert (E : 4 = 5) by (apply (H 4 5 "deals"); vm_compute; reflexivity).
  discriminate E.
Qed.

(** C8 (counterexample): connecting on websocket 11 with the id of the
    already registered connection ["1_aaaaaaaa"] (websocket 10) replaces
    the registered websocket and Connection record instead of being
    rejected. *)
Theorem C8_duplicate_id_replaces_connection :
  active_connections opened_a !! "1_aaaaaaaa" = Some 10 /\
  active_connections
    (fst (connect never_raises_nat never_raises_key 11 1 7 "aaaaaaaa" 5 opened_a))
    !! "1_aaaaaaaa" = Some 11 /\
  connection_info
    (fst (connect never_raises_nat never_raises_key 11 1 7 "aaaaaaaa" 5 opened_a))
    !! "1_aaaaaaaa" = Some (mkConnectionInfo "1_aaaaaaaa" 1 7 5 5 []).
Proof. vm_compute. repeat split. Qed.

(** C9 (counterexample): a registered connection whose transport raises
    sends a malformed frame: the [invalid_json] error frame is not
    delivered and the connection is torn down. *)
Theorem C9_malformed_frame_on_broken_transport :
  active_connections opened_a !! "1_aaaaaaaa" = Some 10 /\
  let s := fst (endpoint_receive (fun _ => true) never_raises_key sample_validators
                  "1_aaaaaaaa" None 1 opened_a) in
  active_connections s !! "1_aaaaaaaa" = None /\
  connection_info s !! "1_aaaaaaaa" = None /\
  sent s = sent opened_a.
Proof. vm_compute. repeat split. Qed.

(** ** Lemmas on the operations *)

Section Operation_lemmas.

Variable send_raises : nat -> bool.
Variable redis_raises : string -> bool.

Lemma remove_connection_from_redis_eq c s :
  exists ks, remove_connection_from_redis redis_raises c s =
             (upd_redis_keys (fun _ => ks) s, Ok tt).
Proof.
  unfold remove_connection_from_redis, try_except, redis_delete, raise, modify, ret.
  destruct (redis_raises _); eexists; reflexivity.
Qed.

Lemma store_connection_in_redis_eq ci s :
  exists ks, store_connection_in_redis redis_raises ci s =
             (upd_redis_keys (fun _ => ks) s, Ok tt).
Proof.
  unfold store_connection_in_redis, redis_client_set, try_except, redis_set, raise, modify, ret.
  destruct (redis_raises _); eexists; reflexivity.
Qed.

Lemma for_each_discard_channels (l : list ChanKey) c s :
  for_each l (fun ch => modify (upd_channels (discard_index ch c))) s =
  (upd_channels (fun m => fold_left (fun m ch => discard_index ch c m) l m) s, Ok tt).
Proof.
  revert s; induction l as [|ch l IH]; intros s; [reflexivity |].
  cbn [for_each]. unfold bind at 1, modify at 1. rewrite IH. reflexivity.
Qed.

Lemma for_each_discard_channels_unfolded (l : list ChanKey) c s :
  for_each l (fun ch s0 => (upd_channels (discard_index ch c) s0, Ok tt)) s =
  (upd_channels (fun m => fold_left (fun m ch => discard_index ch c m) l m) s, Ok tt).
Proof. exact (for_each_discard_channels l c s). Qed.

Lemma disconnect_inactive c s :
  active_connections s !! c = None -> disconnect redis_raises c s = (s, Ok tt).
Proof. intros H. unfold disconnect, bind, get. rewrite H. reflexivity. Qed.

(** The whole effect of [disconnect] on a connection it finds. *)
Lemma disconnect_active_eq c h s :
  active_connections s !! c = Some h ->
  exists ks, disconnect redis_raises c s =
    (upd_redis_keys (fun _ => ks) (upd_info (delete c) (upd_active (delete c)
       (match connection_info s !! c with
        | Some ci =>
            upd_tenants (prune_index (ci_tenant_id ci))
              (upd_users (prune_index (ci_user_id ci))
                (upd_channels (fun m => fold_left (fun m ch => discard_index ch c m)
                                          (ci_subscriptions ci) m)
                  (upd_tenants (discard_index (ci_tenant_id ci) c)
                    (upd_users (discard_index (ci_user_id ci) c) s))))
        | None => s
        end))), Ok tt).
Proof.
  intros H. unfold disconnect, bind at 1, get. rewrite H.
  destruct (connection_info s !! c) as [ci|] eqn:Ei.
  - unfold bind, modify. cbv beta iota. rewrite for_each_discard_channels_unfolded.
    match goal with
    | |- context [remove_connection_from_redis redis_raises c ?s'] =>
        destruct (remove_connection_from_redis_eq c s') as [ks E]; rewrite E
    end.
    exists ks. reflexivity.
  - unfold bind, modify, ret.
    match goal with
    | |- context [remove_connection_from_redis redis_raises c ?s'] =>
        destruct (remove_connection_from_redis_eq c s') as [ks E]; rewrite E
    end.
    exists ks. reflexivity.
Qed.

Lemma disconnect_ok c s :
  disconnect redis_raises c s = (fst (disconnect redis_raises c s), Ok tt).
Proof.
  destruct (active_connections s !! c) as [h|] eqn:Ea.
  - destruct (disconnect_active_eq c h s Ea) as [ks ->]. reflexivity.
  - rewrite (disconnect_inactive c s Ea). reflexivity.
Qed.

Lemma disconnect_active c s :
  active_connections (fst (disconnect redis_raises c s)) = delete c (active_connections s).
Proof.
  destruct (active_connections s !! c) as [h|] eqn:Ea.
  - destruct (disconnect_active_eq c h s Ea) as [ks ->]. cbn.
    destruct (connection_info s !! c); reflexivity.
  - rewrite (disconnect_inactive c s Ea). cbn. by rewrite delete_id.
Qed.

Lemma disconnect_sent c s :
  sent (fst (disconnect redis_raises c s)) = sent s.
Proof.
  destruct (active_connections s !! c) as [h|] eqn:Ea.
  - destruct (disconnect_active_eq c h s Ea) as [ks ->]. cbn.
    destruct (connection_info s !! c); reflexivity.
  - rewrite (disconnect_inactive c s Ea). reflexivity.
Qed.

Lemma disconnect_info c s :
  connection_info (fst (disconnect redis_raises c s)) =
  match active_connections s !! c with
  | Some _ => delete c (connection_info s)
  | None => connection_info s
  end.
Proof.
  destruct (active_connections s !! c) as [h|] eqn:Ea.
  - destruct (disconnect_active_eq c h s Ea) as [ks ->]. cbn.
    destruct (connection_info s !! c); reflexivity.
  - rewrite (disconnect_inactive c s Ea). reflexivity.
Qed.

Lemma disconnect_info_none c c' s :
  connection_info s !! c' = None ->
  connection_info (fst (disconnect redis_raises c s)) !! c' = None.
Proof.
  intros H. rewrite disconnect_info.
  destruct (active_connections s !! c); [| exact H].
  destruct (decide (c = c')) as [<-|Hne].
  - apply lookup_delete_eq.
  - rewrite lookup_delete_ne; done.
Qed.

Lemma send_to_connection_eq c m s :
  send_to_connection send_raises redis_raises c m s =
  match active_connections s !! c with
  | None => (s, Ok false)
  | Some h =>
      if send_raises h then (fst (disconnect redis_raises c s), Ok false)
      else (upd_sent (fun l => l ++ [(h, m)]) s, Ok true)
  end.
Proof.
  unfold send_to_connection, bind at 1, get.
  destruct (active_connections s !! c) as [h|]; [| reflexivity].
  unfold try_except, websocket_send_text.
  destruct (send_raises h).
  - unfold raise, bind. rewrite disconnect_ok. reflexivity.
  - reflexivity.
Qed.

End Operation_lemmas.

Section Fan_out.

Variable send_raises : nat -> bool.
Variable redis_raises : string -> bool.

Lemma send_to_connection_never_raises c m s :
  snd (send_to_connection send_raises redis_raises c m s) <> Raised TransportError /\
  exists b, send_to_connection send_raises redis_raises c m s =
            (fst (send_to_connection send_raises redis_raises c m s), Ok b).
Proof.
  rewrite send_to_connection_eq.
  destruct (active_connections s !! c); [destruct (send_raises _)|];
    split; try discriminate; eexists; reflexivity.
Qed.

Lemma for_each_send_cons x l m s :
  for_each (x :: l) (fun c => send_to_connection send_raises redis_raises c m ;;; ret tt) s =
  for_each l (fun c => send_to_connection send_raises redis_raises c m ;;; ret tt)
    (fst (send_to_connection send_raises redis_raises x m s)).
Proof.
  cbn [for_each]. unfold bind at 1 2.
  destruct (send_to_connection_never_raises x m s) as [_ [b E]].
  rewrite E. reflexivity.
Qed.

(** The loop of the fan-out operations over a snapshot list [l]. *)
Lemma fan_out_loop (l : list string) m s :
  let res := for_each l (fun c => send_to_connection send_raises redis_raises c m ;;; ret tt) s in
  snd res = Ok tt /\
  (forall c, active_connections (fst res) !! c =
     match active_connections s !! c with
     | Some h => if bool_decide (c ∈ l) && send_raises h then None else Some h
     | None => None
     end) /\
  (forall x, In x (sent s) -> In x (sent (fst res))) /\
  (forall c h, In c l -> active_connections s !! c = Some h -> send_raises h = false ->
     In (h, m) (sent (fst res))) /\
  (forall c, connection_info s !! c = None -> connection_info (fst res) !! c = None) /\
  (forall c h, In c l -> active_connections s !! c = Some h -> send_raises h = true ->
     connection_info (fst res) !! c = None).
Proof.
  revert s. induction l as [|x l IH]; intros s; cbn zeta.
  - cbn. split; [reflexivity |]. split.
    + intros c. destruct (active_connections s !! c); [| reflexivity].
      rewrite bool_decide_false by (intros Hc; inversion Hc); reflexivity.
    + split; [auto |]. split; [intros ? ? [] |]. split; [auto | intros ? ? []].
  - rewrite for_each_send_cons, send_to_connection_eq.
    destruct (active_connections s !! x) as [hx|] eqn:Ex.
    + destruct (send_raises hx) eqn:Hrx.
      * (* the send to [x] raises: [x] is disconnected *)
        set (s1 := fst (disconnect redis_raises x s)).
        destruct (IH s1) as (IH1 & IH2 & IH3 & IH4 & IH5 & IH6).
        assert (A1 : active_connections s1 = delete x (active_connections s))
          by apply disconnect_active.
        assert (I1 : connection_info s1 !! x = None).
        { unfold s1. rewrite disconnect_info, Ex. apply lookup_delete_eq. }
        assert (S1 : sent s1 = sent s) by apply disconnect_sent.
        split; [exact IH1 |]. split; [| split; [| split; [| split]]].
        -- intros c. rewrite IH2, A1.
           destruct (decide (c = x)) as [->|Hne].
           ++ rewrite lookup_delete_eq, Ex, Hrx.
              rewrite bool_decide_true by (apply elem_of_cons; left; reflexivity). reflexivity.
           ++ rewrite lookup_delete_ne by congruence.
              destruct (active_connections s !! c); [| reflexivity].
              rewrite (bool_decide_ext (c ∈ x :: l) (c ∈ l)); [reflexivity |].
              rewrite elem_of_cons. split; [intros [H|H]; [congruence | exact H] |].
              intros H; right; exact H.
        -- intros y Hy. apply IH3. rewrite S1. exact Hy.
        -- intros c h [<-|Hc] Hc1 Hc2; [congruence |].
           apply (IH4 c h Hc); [| exact Hc2].
           rewrite A1. destruct (decide (c = x)) as [->|Hne]; [congruence |].
           rewrite lookup_delete_ne by congruence. exact Hc1.
        -- intros c Hc. apply IH5. apply disconnect_info_none. exact Hc.
        -- intros c h Hc Hc1 Hc2.
           destruct (decide (c = x)) as [->|Hne]; [apply IH5, I1 |].
           destruct Hc as [Hc|Hc]; [congruence |].
           apply (IH6 c h Hc); [| exact Hc2].
           rewrite A1, lookup_delete_ne by congruence. exact Hc1.
      * (* the send to [x] succeeds *)
        set (s1 := upd_sent (fun l0 => l0 ++ [(hx, m)]) s).
        destruct (IH s1) as (IH1 & IH2 & IH3 & IH4 & IH5 & IH6).
        split; [exact IH1 |]. split; [| split; [| split; [| split]]].
        -- intros c. rewrite IH2. cbn.
           destruct (active_connections s !! c) as [h|] eqn:Ec; [| reflexivity].
           destruct (decide (c = x)) as [->|Hne].
           ++ rewrite Ex in Ec. injection Ec as <-. rewrite Hrx.
              rewrite !andb_false_r. reflexivity.
           ++ rewrite (bool_decide_ext (c ∈ x :: l) (c ∈ l)); [reflexivity |].
              rewrite elem_of_cons. split; [intros [H|H]; [congruence | exact H] |].
              intros H; right; exact H.
        -- intros y Hy. apply IH3. cbn. apply in_or_app. left. exact Hy.
        -- intros c h [<-|Hc] Hc1 Hc2.
           ++ rewrite Ex in Hc1. injection Hc1 as <-.
              apply IH3. cbn. apply in_or_app. right. left. reflexivity.
           ++ apply (IH4 c h Hc Hc1 Hc2).
        -- intros c Hc. apply IH5. exact Hc.
        -- intros c h [<-|Hc] Hc1 Hc2; [congruence |].
           apply (IH6 c h Hc Hc1 Hc2).
    + (* [x] is no longer registered: nothing is sent *)
      destruct (IH s) as (IH1 & IH2 & IH3 & IH4 & IH5 & IH6).
      split; [exact IH1 |]. split; [| split; [| split; [| split]]].
      * intros c. rewrite IH2.
        destruct (active_connections s !! c) as [h|] eqn:Ec; [| reflexivity].
        destruct (decide (c = x)) as [->|Hne]; [congruence |].
        rewrite (bool_decide_ext (c ∈ x :: l) (c ∈ l)); [reflexivity |].
        rewrite elem_of_cons. split; [intros [H|H]; [congruence | exact H] |].
        intros H; right; exact H.
      * exact IH3.
      * intros c h [<-|Hc] Hc1 Hc2; [congruence |]. apply (IH4 c h Hc Hc1 Hc2).
      * exact IH5.
      * intros c h [<-|Hc] Hc1 Hc2; [congruence |]. apply (IH6 c h Hc Hc1 Hc2).
Qed.

Lemma send_to_all_isolated ids m s :
  fan_out_isolated send_raises ids m s (send_to_all send_raises redis_raises ids m s).
Proof.
  unfold send_to_all.
  destruct (fan_out_loop (elements ids) m s) as (H1 & H2 & H3 & H4 & H5 & H6).
  split; [exact H1 |].
  intros c h Hc.
  assert (Hin : c ∈ ids -> In c (elements ids)).
  { intros Hi. apply list_elem_of_In. apply elem_of_elements. exact Hi. }
  assert (Hin' : c ∈ ids -> c ∈ elements ids).
  { intros Hi. apply elem_of_elements. exact Hi. }
  split; [| split].
  - intros Hi Hr. split.
    + rewrite H2, Hc, Hr, bool_decide_true by (apply Hin', Hi). reflexivity.
    + apply (H6 c h (Hin Hi) Hc Hr).
  - intros Hi Hr. apply (H4 c h (Hin Hi) Hc Hr).
  - intros Hr. rewrite H2, Hc, Hr, andb_false_r. reflexivity.
Qed.

End Fan_out.

(** ** Index lemmas *)

Lemma dd_get_add_index_ne {K} `{Countable K} (m : gmap K (gset string)) k0 c k :
  k ≠ k0 -> dd_get (add_index k0 c m) k = dd_get m k.
Proof. intros Hne. unfold dd_get, add_index. rewrite lookup_insert_ne by congruence. done. Qed.

Lemma elem_of_add_index {K} `{Countable K} (m : gmap K (gset string)) k c :
  c ∈ dd_get (add_index k c m) k.
Proof. unfold dd_get, add_index. rewrite lookup_insert_eq. cbn. set_solver. Qed.

(** After [d[k0].discard(c)] and the pruning of [d[k0]], [c] is in no set
    of [d] that did not contain it elsewhere. *)
Lemma not_elem_of_prune_discard {K} `{Countable K} (m : gmap K (gset string)) k0 c k :
  (k ≠ k0 -> c ∉ dd_get m k) -> c ∉ dd_get (prune_index k0 (discard_index k0 c m)) k.
Proof.
  intros Hk. unfold prune_index, discard_index.
  case_decide as Hemp; unfold dd_get in *.
  - destruct (decide (k = k0)) as [->|Hne].
    + rewrite lookup_delete_eq. cbn. set_solver.
    + rewrite lookup_delete_ne, lookup_insert_ne by congruence. apply Hk, Hne.
  - destruct (decide (k = k0)) as [->|Hne].
    + rewrite lookup_insert_eq. cbn. set_solver.
    + rewrite lookup_insert_ne by congruence. apply Hk, Hne.
Qed.

Section Connect_and_scan.

Variable send_raises : nat -> bool.
Variable redis_raises : string -> bool.

(** [connect] registers the connection, then sends the acknowledgement. *)
Lemma connect_eq h u t suffix now s :
  let c := connection_id_of u suffix in
  let ci := mkConnectionInfo c u t now now [] in
  exists ks,
    connect send_raises redis_raises h u t suffix now s =
    (fst (send_to_connection send_raises redis_raises c (connect_ack_message c u t)
       (upd_redis_keys (fun _ => ks)
          (upd_tenants (add_index t c) (upd_users (add_index u c)
             (upd_info (<[c := ci]>) (upd_active (<[c := h]>) s)))))), Ok c).
Proof.
  cbn zeta. unfold connect, bind, modify, ret. cbv beta iota.
  match goal with
  | |- context [store_connection_in_redis redis_raises ?ci ?s'] =>
      destruct (store_connection_in_redis_eq redis_raises ci s') as [ks E]; rewrite E
  end.
  exists ks.
  match goal with
  | |- context [send_to_connection send_raises redis_raises ?c ?m ?s'] =>
      destruct (send_to_connection_never_raises send_raises redis_raises c m s')
        as [_ [b E2]]; rewrite E2
  end.
  reflexivity.
Qed.

Lemma for_each_disconnect_cons x l s :
  for_each (x :: l) (fun c => disconnect redis_raises c) s =
  for_each l (fun c => disconnect redis_raises c) (fst (disconnect redis_raises x s)).
Proof. cbn [for_each]. unfold bind at 1. rewrite disconnect_ok. reflexivity. Qed.

(** The eviction loop of the heartbeat monitor. *)
Lemma disconnect_loop (l : list string) s :
  let res := for_each l (fun c => disconnect redis_raises c) s in
  snd res = Ok tt /\
  (forall c, active_connections s !! c = None -> active_connections (fst res) !! c = None) /\
  (forall c, In c l -> active_connections (fst res) !! c = None) /\
  (forall c, connection_info s !! c = None -> connection_info (fst res) !! c = None) /\
  (forall c, In c l -> is_Some (active_connections s !! c) ->
     connection_info (fst res) !! c = None).
Proof.
  revert s. induction l as [|x l IH]; intros s; cbn zeta.
  - split; [reflexivity |]. split; [auto |]. split; [intros ? [] |].
    split; [auto | intros ? []].
  - rewrite for_each_disconnect_cons.
    set (s1 := fst (disconnect redis_raises x s)).
    destruct (IH s1) as (IH1 & IH2 & IH3 & IH4 & IH5).
    assert (A1 : active_connections s1 = delete x (active_connections s))
      by apply disconnect_active.
    split; [exact IH1 |]. split; [| split; [| split]].
    + intros c Hc. apply IH2. rewrite A1.
      destruct (decide (c = x)) as [->|Hne]; [apply lookup_delete_eq |].
      rewrite lookup_delete_ne by congruence. exact Hc.
    + intros c [<-|Hc]; [| apply IH3, Hc].
      apply IH2. rewrite A1. apply lookup_delete_eq.
    + intros c Hc. apply IH4. apply disconnect_info_none. exact Hc.
    + intros c Hc Ha. destruct (decide (c = x)) as [->|Hne].
      * apply IH4. unfold s1. rewrite disconnect_info.
        destruct Ha as [h Ha]. rewrite Ha. apply lookup_delete_eq.
      * destruct Hc as [Hc|Hc]; [congruence |]. apply IH5; [exact Hc |].
        rewrite A1, lookup_delete_ne by congruence. exact Ha.
Qed.

Lemma timed_out_In thr s c ci :
  connection_info s !! c = Some ci -> (ci_last_heartbeat ci < thr)%Z ->
  In c (timed_out thr s).
Proof.
  intros H Hlt. unfold timed_out. apply in_map_iff. exists (c, ci).
  split; [reflexivity |]. apply List.filter_In. split.
  - apply list_elem_of_In, elem_of_map_to_list, H.
  - cbn. apply Z.ltb_lt, Hlt.
Qed.

End Connect_and_scan.

(** ** Claims proved for all inputs *)

(** C4: [send_to_user], [send_to_tenant] and [send_to_channel] iterate
    over a copy of the indexed id set; a connection whose transport send
    raises is disconnected by [_send_to_connection], every other indexed
    connection still receives the notification and stays registered, and
    the fan-out itself returns normally whatever the transports do. *)
Theorem C4_fan_out_isolates_transport_failures
    (send_raises : nat -> bool) (redis_raises : string -> bool)
    (user_id tenant_id : Z) (ch : string) (n : WebSocketNotification) (s : Manager) :
  fan_out_isolated send_raises (dd_get (user_connections s) user_id)
    (notification_message n) s (send_to_user send_raises redis_raises user_id n s) /\
  fan_out_isolated send_raises (dd_get (tenant_connections s) tenant_id)
    (notification_message n) s (send_to_tenant send_raises redis_raises tenant_id n s) /\
  fan_out_isolated send_raises (dd_get (channel_subscriptions s) ch)
    (notification_message n) s (send_to_channel send_raises redis_raises ch n s).
Proof.
  split; [| split]; apply send_to_all_isolated.
Qed.

(** C5: a second [disconnect] of the same id finds it gone from
    [active_connections] and returns at once: the end state is the one
    left by the first call. *)
Theorem C5_disconnect_twice_is_disconnect_once
    (redis_raises : string -> bool) (c : string) (s : Manager) :
  let s1 := fst (disconnect redis_raises c s) in
  disconnect redis_raises c s1 = (s1, Ok tt).
Proof.
  cbn zeta. apply disconnect_inactive. rewrite disconnect_active.
  apply lookup_delete_eq.
Qed.

(** C7: one scan of the heartbeat monitor disconnects every connection
    whose last heartbeat is older than two minutes and finishes normally,
    whichever Redis deletions fail on the way: the only fallible step of
    an eviction, the Redis delete, is caught and logged inside
    [disconnect], so no eviction aborts the scan. *)
Theorem C7_heartbeat_scan_evicts_every_timed_out
    (redis_raises : string -> bool) (now : Z) (s : Manager) :
  let res := heartbeat_scan redis_raises now s in
  snd res = Ok tt /\
  forall c ci, connection_info s !! c = Some ci ->
    (ci_last_heartbeat ci < now - heartbeat_timeout)%Z ->
    active_connections (fst res) !! c = None /\
    (is_Some (active_connections s !! c) -> connection_info (fst res) !! c = None).
Proof.
  cbn zeta. unfold heartbeat_scan, try_except, bind, get. cbv beta iota.
  set (l := timed_out (now - heartbeat_timeout) s).
  destruct (disconnect_loop redis_raises l s) as (H1 & _ & H3 & _ & H5).
  destruct (for_each l (fun c => disconnect redis_raises c) s) as [s' r] eqn:E.
  cbn in H1. subst r. cbn [fst snd] in *.
  split; [reflexivity |].
  intros c ci Hc Hlt.
  assert (Hin : In c l) by (apply (timed_out_In _ s c ci Hc Hlt)).
  split; [apply H3, Hin | intros Ha; apply H5; [exact Hin | exact Ha]].
Qed.

(** C8 (as amended): [connect] has no duplicate-id check.  Whatever the
    registry already holds under the generated id, [connect] returns the
    id.  If the acknowledgement is delivered, the id holds the new
    websocket and a fresh Connection record (new timestamps, no
    subscriptions) and is in the user's and the tenant's index sets; if
    its send raises, the overwritten entry is torn down as well: the id is
    then in neither [active_connections] nor [connection_info]. *)
Theorem C8_connect_overwrites_existing_id
    (send_raises : nat -> bool) (redis_raises : string -> bool)
    (h : nat) (u t : Z) (suffix : string) (now : Z) (s : Manager) :
  let c := connection_id_of u suffix in
  let res := connect send_raises redis_raises h u t suffix now s in
  snd res = Ok c /\
  (send_raises h = false ->
     active_connections (fst res) !! c = Some h /\
     connection_info (fst res) !! c = Some (mkConnectionInfo c u t now now []) /\
     c ∈ dd_get (user_connections (fst res)) u /\
     c ∈ dd_get (tenant_connections (fst res)) t) /\
  (send_raises h = true ->
     active_connections (fst res) !! c = None /\
     connection_info (fst res) !! c = None).
Proof.
  cbn zeta.
  destruct (connect_eq send_raises redis_raises h u t suffix now s) as [ks E].
  rewrite E. cbn [fst snd]. rewrite (send_to_connection_eq send_raises redis_raises).
  cbn [active_connections upd_redis_keys upd_tenants upd_users upd_info upd_active].
  rewrite lookup_insert_eq.
  split; [destruct (send_raises h); reflexivity |]. split.
  - intros Hh. rewrite Hh. cbn.
    split; [apply lookup_insert_eq |].
    split; [apply lookup_insert_eq |].
    split; apply elem_of_add_index.
  - intros Hh. rewrite Hh. cbn [fst].
    rewrite disconnect_active, disconnect_info.
    cbn [active_connections upd_redis_keys upd_tenants upd_users upd_info upd_active].
    rewrite lookup_insert_eq. split; apply lookup_delete_eq.
Qed.

Lemma C8_connect_overwrites_existing_id_witness :
  active_connections opened_a !! "1_aaaaaaaa" = Some 10 /\
  active_connections
    (fst (connect never_raises_nat never_raises_key 11 1 7 "aaaaaaaa" 5 opened_a))
    !! connection_id_of 1 "aaaaaaaa" = Some 11 /\
  active_connections
    (fst (connect (fun _ => true) never_raises_key 11 1 7 "aaaaaaaa" 5 opened_a))
    !! connection_id_of 1 "aaaaaaaa" = None.
Proof.
  split; [vm_compute; reflexivity |]. split.
  - destruct (C8_connect_overwrites_existing_id never_raises_nat never_raises_key
                11 1 7 "aaaaaaaa" 5 opened_a) as (_ & H & _).
    apply (proj1 (H eq_refl)).
  - destruct (C8_connect_overwrites_existing_id (fun _ => true) never_raises_key
                11 1 7 "aaaaaaaa" 5 opened_a) as (_ & _ & H).
    apply (proj1 (H eq_refl)).
Defined.

(** C9 (as amended): a malformed frame from a registered connection
    produces one [error] frame with code [invalid_json] on it.  If the
    send succeeds, that frame is the only change: the connection stays
    registered with all its index entries.  If the send raises, the
    connection is torn down by [disconnect], as on any transport failure:
    it is then in neither [active_connections] nor [connection_info]. *)
Theorem C9_malformed_frame_error_reply
    (send_raises : nat -> bool) (redis_raises : string -> bool) (pv : Validators)
    (c : string) (h : nat) (now : Z) (s : Manager)
    (Ha : active_connections s !! c = Some h) :
  (send_raises h = false ->
     endpoint_receive send_raises redis_raises pv c None now s =
     (upd_sent (fun l => l ++ [(h, mkMessage ERROR
                                     (websocket_error_dict "invalid_json" "Invalid JSON format"))]) s,
      Ok tt)) /\
  (send_raises h = true ->
     endpoint_receive send_raises redis_raises pv c None now s =
       (fst (disconnect redis_raises c s), Ok tt) /\
     active_connections (fst (disconnect redis_raises c s)) !! c = None /\
     connection_info (fst (disconnect redis_raises c s)) !! c = None).
Proof.
  unfold endpoint_receive, send_error, bind.
  rewrite (send_to_connection_eq send_raises redis_raises), Ha.
  destruct (send_raises h); split; intros Hh; try discriminate Hh; [| reflexivity].
  split; [reflexivity |].
  rewrite disconnect_active, disconnect_info, Ha. split; apply lookup_delete_eq.
Qed.

Lemma C9_malformed_frame_error_reply_witness :
  active_connections opened_a !! "1_aaaaaaaa" = Some 10 /\
  endpoint_receive never_raises_nat never_raises_key sample_validators
    "1_aaaaaaaa" None 1 opened_a =
  (upd_sent (fun l => l ++ [(10, mkMessage ERROR
                                   (websocket_error_dict "invalid_json" "Invalid JSON format"))])
     opened_a, Ok tt) /\
  active_connections (fst (disconnect never_raises_key "1_aaaaaaaa" opened_a))
    !! "1_aaaaaaaa" = None.
Proof.
  split; [vm_compute; reflexivity |]. split.
  - apply (C9_malformed_frame_error_reply never_raises_nat never_raises_key sample_validators
             "1_aaaaaaaa" 10 1 opened_a); [vm_compute; reflexivity | reflexivity].
  - destruct (C9_malformed_frame_error_reply (fun _ => true) never_raises_key sample_validators
                "1_aaaaaaaa" 10 1 opened_a) as [_ H]; [vm_compute; reflexivity |].
    apply (proj1 (proj2 (H eq_refl))).
Defined.

(** C10: when sending the CONNECT acknowledgement raises, [connect] tears
    the new connection down (through [_send_to_connection] and
    [disconnect]) and still returns its id normally: the returned id is in
    no registry map and no index set. *)
Theorem C10_connect_returns_torn_down_id
    (send_raises : nat -> bool) (redis_raises : string -> bool)
    (h : nat) (u t : Z) (suffix : string) (now : Z) (s : Manager)
    (Hh : send_raises h = true)
    (Hfresh_user : forall k, connection_id_of u suffix ∉ dd_get (user_connections s) k)
    (Hfresh_tenant : forall k, connection_id_of u suffix ∉ dd_get (tenant_connections s) k)
    (Hfresh_channel : forall ch, connection_id_of u suffix ∉ dd_get (channel_subscriptions s) ch) :
  let c := connection_id_of u suffix in
  let res := connect send_raises redis_raises h u t suffix now s in
  snd res = Ok c /\
  active_connections (fst res) !! c = None /\
  connection_info (fst res) !! c = None /\
  (forall k, c ∉ dd_get (user_connections (fst res)) k) /\
  (forall k, c ∉ dd_get (tenant_connections (fst res)) k) /\
  (forall ch, c ∉ dd_get (channel_subscriptions (fst res)) ch).
Proof.
  cbn zeta.
  destruct (connect_eq send_raises redis_raises h u t suffix now s) as [ks E].
  rewrite E. cbn [fst snd]. rewrite (send_to_connection_eq send_raises redis_raises).
  cbn [active_connections upd_redis_keys upd_tenants upd_users upd_info upd_active].
  rewrite lookup_insert_eq, Hh. cbn [fst].
  set (c := connection_id_of u suffix).
  set (s1 := upd_redis_keys (fun _ => ks) (upd_tenants (add_index t c)
               (upd_users (add_index u c)
                  (upd_info (<[c := mkConnectionInfo c u t now now []]>)
                     (upd_active (<[c := h]>) s))))).
  assert (Ha1 : active_connections s1 !! c = Some h) by apply lookup_insert_eq.
  assert (Hi1 : connection_info s1 !! c = Some (mkConnectionInfo c u t now now []))
    by apply lookup_insert_eq.
  destruct (disconnect_active_eq redis_raises c h s1 Ha1) as [ks' E'].
  rewrite E'. rewrite Hi1. cbn [fst].
  split; [reflexivity |].
  split; [apply lookup_delete_eq |].
  split; [apply lookup_delete_eq |].
  split; [| split].
  - intros k. apply not_elem_of_prune_discard. intros Hne.
    change (c ∉ dd_get (add_index u c (user_connections s)) k).
    rewrite dd_get_add_index_ne by exact Hne. apply Hfresh_user.
  - intros k. apply not_elem_of_prune_discard. intros Hne.
    change (c ∉ dd_get (add_index t c (tenant_connections s)) k).
    rewrite dd_get_add_index_ne by exact Hne. apply Hfresh_tenant.
  - intros ch. apply Hfresh_channel.
Qed.

Lemma C10_connect_returns_torn_down_id_witness :
  let res := connect (fun _ => true) never_raises_key 10 1 7 "aaaaaaaa" 0 empty_manager in
  snd res = Ok "1_aaaaaaaa" /\
  active_connections (fst res) !! "1_aaaaaaaa" = None.
Proof.
  destruct (C10_connect_returns_torn_down_id (fun _ => true) never_raises_key
              10 1 7 "aaaaaaaa" 0 empty_manager) as (H1 & H2 & _).
  - reflexivity.
  - intros k. unfold dd_get.
    cbn [user_connections tenant_connections channel_subscriptions empty_manager].
    rewrite lookup_empty. cbn. set_solver.
  - intros k. unfold dd_get.
    cbn [user_connections tenant_connections channel_subscriptions empty_manager].
    rewrite lookup_empty. cbn. set_solver.
  - intros k. unfold dd_get.
    cbn [user_connections tenant_connections channel_subscriptions empty_manager].
    rewrite lookup_empty. cbn. set_solver.
  - split; [exact H1 | exact H2].
Defined.

(** ** Lemmas for the further properties *)

(** *** Index maps *)

Lemma no_empty_entry_add_index {K} `{Countable K} (m : gmap K (gset string)) k c :
  no_empty_entry m -> no_empty_entry (add_index k c m).
Proof.
  intros Hm k' X. unfold add_index. destruct (decide (k' = k)) as [->|Hne].
  - rewrite lookup_insert_eq. intros [= <-]. set_solver.
  - rewrite lookup_insert_ne by congruence. apply Hm.
Qed.

Lemma no_empty_entry_prune_discard {K} `{Countable K} (m : gmap K (gset string)) k c :
  no_empty_entry m -> no_empty_entry (prune_index k (discard_index k c m)).
Proof.
  intros Hm k' X. unfold prune_index, discard_index. case_decide as Hemp.
  - destruct (decide (k' = k)) as [->|Hne].
    + rewrite lookup_delete_eq. discriminate.
    + rewrite lookup_delete_ne, lookup_insert_ne by congruence. apply Hm.
  - destruct (decide (k' = k)) as [->|Hne].
    + rewrite lookup_insert_eq. intros [= <-].
      unfold dd_get in Hemp. rewrite lookup_insert_eq in Hemp. exact Hemp.
    + rewrite lookup_insert_ne by congruence. apply Hm.
Qed.

(** *** The bus-listener bookkeeping touches only the task fields *)

Lemma ensure_redis_subscription_eq ch s :
  exists rt ts nt, ensure_redis_subscription ch s =
    (upd_next_task (fun _ => nt) (upd_tasks (fun _ => ts) (upd_redis_tasks (fun _ => rt) s)),
     Ok tt).
Proof.
  unfold ensure_redis_subscription, bind, get. cbv beta iota.
  destruct (match redis_tasks s !! ch with Some t => task_done s t | None => true end).
  - unfold create_task, modify.
    exists (<[ch := next_task s]> (redis_tasks s)),
      (<[next_task s := mkTask ch Running]> (tasks s)), (S (next_task s)).
    reflexivity.
  - exists (redis_tasks s), (tasks s), (next_task s). reflexivity.
Qed.

Lemma stop_redis_subscription_eq ch s :
  exists rt ts, stop_redis_subscription ch s =
    (upd_tasks (fun _ => ts) (upd_redis_tasks (fun _ => rt) s), Ok tt).
Proof.
  unfold stop_redis_subscription, bind, get. cbv beta iota.
  destruct (redis_tasks s !! ch).
  - unfold modify. eexists _, _. reflexivity.
  - exists (redis_tasks s), (tasks s). reflexivity.
Qed.

(** *** Preservation of [registry_ok] *)

Lemma registry_ok_frame s s' :
  active_connections s' = active_connections s ->
  (forall c, is_Some (connection_info s' !! c) <-> is_Some (connection_info s !! c)) ->
  user_connections s' = user_connections s ->
  tenant_connections s' = tenant_connections s ->
  registry_ok s -> registry_ok s'.
Proof.
  intros Ha Hi Hu Ht (Hd & Hus & Hts). unfold registry_ok. rewrite Ha, Hu, Ht.
  split; [| split; assumption]. intros c. rewrite Hi. apply Hd.
Qed.

Lemma preserves_ret {A} (a : A) : preserves (ret a).
Proof. intros s Hs. exact Hs. Qed.

Lemma preserves_raise {A} (e : Exn) : preserves (raise (A:=A) e).
Proof. intros s Hs. exact Hs. Qed.

Lemma preserves_get : preserves get.
Proof. intros s Hs. exact Hs. Qed.

Lemma preserves_bind {A B} (m : M A) (k : A -> M B) :
  preserves m -> (forall a, preserves (k a)) -> preserves (bind m k).
Proof.
  intros Hm Hk s Hs. unfold bind. specialize (Hm s Hs).
  destruct (m s) as [s' [a|e]]; [apply Hk |]; exact Hm.
Qed.

Lemma preserves_try {A} (m : M A) (h : Exn -> M A) :
  preserves m -> (forall e, preserves (h e)) -> preserves (try_except m h).
Proof.
  intros Hm Hh s Hs. unfold try_except. specialize (Hm s Hs).
  destruct (m s) as [s' [a|e]]; [| apply Hh]; exact Hm.
Qed.

Lemma preserves_for_each {A} (l : list A) (f : A -> M unit) :
  (forall x, preserves (f x)) -> preserves (for_each l f).
Proof.
  intros Hf. induction l as [|x l IH]; cbn [for_each].
  - apply preserves_ret.
  - apply preserves_bind; [apply Hf | intros _; exact IH].
Qed.

Lemma preserves_modify_frame (f : Manager -> Manager) :
  (forall s, active_connections (f s) = active_connections s /\
             connection_info (f s) = connection_info s /\
             user_connections (f s) = user_connections s /\
             tenant_connections (f s) = tenant_connections s) ->
  preserves (modify f).
Proof.
  intros Hf s Hs. cbn. destruct (Hf s) as (Ha & Hi & Hu & Ht).
  apply (registry_ok_frame s); [exact Ha | rewrite Hi; reflexivity | exact Hu | exact Ht | exact Hs].
Qed.

Create HintDb registry.
#[local] Hint Resolve preserves_ret preserves_raise preserves_get : registry.
#[local] Hint Extern 1 (preserves (bind _ _)) => apply preserves_bind; intros : registry.
#[local] Hint Extern 1 (preserves (try_except _ _)) => apply preserves_try; intros : registry.
#[local] Hint Extern 1 (preserves (for_each _ _)) => apply preserves_for_each; intros : registry.
#[local] Hint Extern 1 (preserves (modify _)) =>
  apply preserves_modify_frame; intros; cbn; repeat split : registry.

Section Registry.

Variable send_raises : nat -> bool.
Variable redis_raises : string -> bool.
Variable pv : Validators.

Lemma preserves_ensure_redis_subscription ch :
  preserves (ensure_redis_subscription ch).
Proof.
  intros s Hs. destruct (ensure_redis_subscription_eq ch s) as (rt & ts & nt & ->).
  exact Hs.
Qed.

Lemma preserves_stop_redis_subscription ch :
  preserves (stop_redis_subscription ch).
Proof.
  intros s Hs. destruct (stop_redis_subscription_eq ch s) as (rt & ts & ->). exact Hs.
Qed.

Lemma preserves_disconnect c : preserves (disconnect redis_raises c).
Proof.
  intros s Hs. destruct (active_connections s !! c) as [h|] eqn:Ea.
  - destruct (disconnect_active_eq redis_raises c h s Ea) as [ks ->]. cbn [fst].
    destruct Hs as (Hd & Hus & Hts).
    destruct (connection_info s !! c) as [ci|] eqn:Ei; unfold registry_ok; cbn.
    + split; [| split].
      * intros c'. destruct (decide (c' = c)) as [->|Hne].
        -- rewrite !lookup_delete_eq. split; intros [? ?]; discriminate.
        -- rewrite !lookup_delete_ne by congruence. apply Hd.
      * apply no_empty_entry_prune_discard, Hus.
      * apply no_empty_entry_prune_discard, Hts.
    + split; [| split; assumption].
      intros c'. destruct (decide (c' = c)) as [->|Hne].
      * rewrite !lookup_delete_eq. split; intros [? ?]; discriminate.
      * rewrite !lookup_delete_ne by congruence. apply Hd.
  - rewrite (disconnect_inactive redis_raises c s Ea). exact Hs.
Qed.

Lemma preserves_send_to_connection c m :
  preserves (send_to_connection send_raises redis_raises c m).
Proof.
  intros s Hs. rewrite send_to_connection_eq.
  destruct (active_connections s !! c) as [h|]; [| exact Hs].
  destruct (send_raises h); [apply preserves_disconnect, Hs | exact Hs].
Qed.

#[local] Hint Resolve preserves_ensure_redis_subscription preserves_stop_redis_subscription
  preserves_disconnect preserves_send_to_connection : registry.

Lemma preserves_send_error c code msg :
  preserves (send_error send_raises redis_raises c code msg).
Proof. unfold send_error. eauto with registry. Qed.

(** An update of the Connection record of a registered id. *)
Lemma registry_ok_update_info s s' c ci :
  connection_info s !! c = Some ci ->
  active_connections s' = active_connections s ->
  (exists ci', connection_info s' = <[c := ci']> (connection_info s)) ->
  user_connections s' = user_connections s ->
  tenant_connections s' = tenant_connections s ->
  registry_ok s -> registry_ok s'.
Proof.
  intros Hc Ha [ci' Hi] Hu Ht. apply registry_ok_frame; [exact Ha | | exact Hu | exact Ht].
  intros c'. rewrite Hi. destruct (decide (c' = c)) as [->|Hne].
  - rewrite lookup_insert_eq, Hc. split; intros _; eexists; reflexivity.
  - rewrite lookup_insert_ne by congruence. reflexivity.
Qed.

Lemma preserves_subscribe_to_channel c ch :
  preserves (subscribe_to_channel send_raises redis_raises c ch).
Proof.
  intros s Hs. unfold subscribe_to_channel, bind at 1, get.
  destruct (connection_info s !! c) as [ci|] eqn:Ec; [| exact Hs].
  destruct (chan_key ch) as [k|]; [| exact Hs].
  unfold bind, modify. cbv beta iota.
  destruct (ensure_redis_subscription_eq k
    (upd_info (<[c:=set_subscriptions (ci_subscriptions ci ++ [k]) ci]>)
       (upd_channels (add_index k c) s))) as (rt & ts & nt & ->).
  destruct (send_to_connection_never_raises send_raises redis_raises c
              (ack_message "subscribe" ch)
              (upd_next_task (fun _ => nt) (upd_tasks (fun _ => ts) (upd_redis_tasks (fun _ => rt)
                (upd_info (<[c:=set_subscriptions (ci_subscriptions ci ++ [k]) ci]>)
                   (upd_channels (add_index k c) s)))))) as [_ [b ->]].
  cbn [fst]. apply preserves_send_to_connection.
  apply (registry_ok_update_info s _ c ci Ec); [reflexivity | eexists; reflexivity
    | reflexivity | reflexivity | exact Hs].
Qed.

Lemma preserves_unsubscribe_from_channel c ch :
  preserves (unsubscribe_from_channel send_raises redis_raises c ch).
Proof.
  intros s Hs. unfold unsubscribe_from_channel, bind at 1, get.
  destruct (connection_info s !! c) as [ci|] eqn:Ec; [| exact Hs].
  destruct (chan_key ch) as [k|]; [| exact Hs].
  set (s1 := upd_channels (discard_index k c) s).
  assert (Hs1 : registry_ok s1) by exact Hs.
  assert (Ec1 : connection_info s1 !! c = Some ci) by exact Ec.
  unfold bind at 1, modify at 1. fold s1.
  assert (Hs2 : registry_ok (fst ((if existsb (chan_key_eqb k) (ci_subscriptions ci)
       then modify (upd_info (<[c := set_subscriptions (list_remove k (ci_subscriptions ci)) ci]>))
       else ret tt) s1))).
  { destruct (existsb _ _); [| exact Hs1].
    apply (registry_ok_update_info s1 _ c ci Ec1); [reflexivity | eexists; reflexivity
      | reflexivity | reflexivity | exact Hs1]. }
  revert Hs2.
  generalize (if existsb (chan_key_eqb k) (ci_subscriptions ci)
       then modify (upd_info (<[c := set_subscriptions (list_remove k (ci_subscriptions ci)) ci]>))
       else ret tt).
  intros m Hs2. unfold bind at 1.
  destruct (m s1) as [s2 [[]|e]]; [| exact Hs2]. cbn [fst] in Hs2.
  revert s2 Hs2. apply preserves_bind; [apply preserves_get | intros s3].
  apply preserves_bind; [| intros _; apply preserves_bind; eauto with registry].
  destruct (decide _); eauto with registry.
Qed.

Lemma preserves_handle_heartbeat c now :
  preserves (handle_heartbeat send_raises redis_raises c now).
Proof.
  intros s Hs. unfold handle_heartbeat, bind at 1, get.
  destruct (connection_info s !! c) as [ci|] eqn:Ec; [| exact Hs].
  unfold bind at 1, modify at 1.
  assert (Hs1 : registry_ok (upd_info (<[c:=set_last_heartbeat now ci]>) s)).
  { apply (registry_ok_update_info s _ c ci Ec); [reflexivity | eexists; reflexivity
      | reflexivity | reflexivity | exact Hs]. }
  revert Hs1. generalize (upd_info (<[c:=set_last_heartbeat now ci]>) s) as s1.
  intros s1 Hs1.
  exact (preserves_bind _ _ (preserves_send_to_connection c _) (fun _ => preserves_ret tt) s1 Hs1).
Qed.

#[local] Hint Resolve preserves_subscribe_to_channel preserves_unsubscribe_from_channel
  preserves_handle_heartbeat preserves_send_error : registry.

Lemma preserves_parse_message v : preserves (parse_message pv v).
Proof.
  unfold parse_message.
  repeat match goal with
         | |- preserves (match ?x with _ => _ end) => destruct x
         end; auto with registry.
Qed.

Lemma preserves_channel_action (f : string -> JVal -> M bool) c v :
  (forall c ch, preserves (f c ch)) -> preserves (channel_action f c v).
Proof.
  intros Hf. unfold channel_action.
  destruct v as [v|]; [| auto with registry].
  destruct (truthy v); [| auto with registry].
  apply preserves_bind; [apply Hf | intros; apply preserves_ret].
Qed.

#[local] Hint Resolve preserves_parse_message : registry.

Lemma preserves_handle_message c v now :
  preserves (handle_message send_raises redis_raises pv c v now).
Proof.
  unfold handle_message. apply preserves_try; [| eauto with registry].
  apply preserves_bind; [auto with registry | intros msg].
  destruct (msg_type msg); auto with registry; apply preserves_channel_action; auto with registry.
Qed.

#[local] Hint Resolve preserves_handle_message : registry.

Lemma preserves_endpoint_receive c frame now :
  preserves (endpoint_receive send_raises redis_raises pv c frame now).
Proof. unfold endpoint_receive. destruct frame; eauto with registry. Qed.

Lemma preserves_connect h u t suffix now :
  preserves (connect send_raises redis_raises h u t suffix now).
Proof.
  intros s Hs. destruct (connect_eq send_raises redis_raises h u t suffix now s) as [ks ->].
  cbn [fst]. apply preserves_send_to_connection.
  destruct Hs as (Hd & Hus & Hts). unfold registry_ok. cbn. split; [| split].
  - intros c'. destruct (decide (c' = connection_id_of u suffix)) as [->|Hne].
    + rewrite !lookup_insert_eq. split; intros _; eexists; reflexivity.
    + rewrite !lookup_insert_ne by congruence. apply Hd.
  - apply no_empty_entry_add_index, Hus.
  - apply no_empty_entry_add_index, Hts.
Qed.

#[local] Hint Resolve preserves_connect : registry.

Lemma preserves_endpoint_open h u t suffix now offline :
  preserves (endpoint_open send_raises redis_raises h u t suffix now offline).
Proof. unfold endpoint_open. eauto 10 with registry. Qed.

Lemma preserves_heartbeat_scan now : preserves (heartbeat_scan redis_raises now).
Proof. unfold heartbeat_scan. eauto with registry. Qed.

Lemma registry_ok_step ev s :
  registry_ok s -> registry_ok (step send_raises redis_raises pv ev s).
Proof.
  destruct ev; cbn [step].
  - apply preserves_endpoint_open.
  - apply preserves_endpoint_receive.
  - apply preserves_disconnect.
  - apply preserves_heartbeat_scan.
  - unfold redis_subscription_handler_exit.
    destruct (tasks s !! t) as [tk|]; [| auto]. destruct (task_status tk); auto.
Qed.

Lemma registry_ok_run_events evs s :
  registry_ok s -> registry_ok (run_events send_raises redis_raises pv evs s).
Proof.
  revert s. induction evs as [|ev evs IH]; intros s Hs; [exact Hs |].
  cbn. apply IH, registry_ok_step, Hs.
Qed.

End Registry.

Lemma registry_ok_empty : registry_ok empty_manager.
Proof.
  split; [| split]; [intros c; cbn; rewrite !lookup_empty; split; intros [? ?]; discriminate
                    | intros k X; cbn; rewrite lookup_empty; discriminate ..].
Qed.

(** *** Closed forms of the operations on a registered connection *)

Section Closed_forms.

Variable send_raises : nat -> bool.
Variable redis_raises : string -> bool.
Variable pv : Validators.

Lemma send_error_eq c code msg s :
  send_error send_raises redis_raises c code msg s =
  (fst (send_to_connection send_raises redis_raises c
          (mkMessage ERROR (websocket_error_dict code msg)) s), Ok tt).
Proof.
  unfold send_error, bind.
  destruct (send_to_connection_never_raises send_raises redis_raises c
              (mkMessage ERROR (websocket_error_dict code msg)) s) as [_ [b ->]].
  reflexivity.
Qed.

Lemma handle_message_ok c v now s :
  snd (handle_message send_raises redis_raises pv c v now s) = Ok tt.
Proof.
  unfold handle_message, try_except.
  match goal with
  | |- snd (match ?r with _ => _ end) = _ => destruct r as [s' [[]|e]]
  end; [reflexivity |]. rewrite send_error_eq. reflexivity.
Qed.

Lemma ensure_redis_subscription_live ch s :
  let s' := fst (ensure_redis_subscription ch s) in
  exists t, redis_tasks s' !! ch = Some t /\ task_done s' t = false.
Proof.
  cbn zeta. unfold ensure_redis_subscription, bind, get. cbv beta iota.
  destruct (match redis_tasks s !! ch with Some t => task_done s t | None => true end) eqn:E.
  - unfold create_task, modify. cbn. exists (next_task s).
    rewrite lookup_insert_eq. split; [reflexivity |].
    unfold task_done. cbn. rewrite lookup_insert_eq. reflexivity.
  - cbn. destruct (redis_tasks s !! ch) as [t|]; [| discriminate].
    exists t. split; [reflexivity | exact E].
Qed.

Lemma ensure_redis_subscription_noop ch s t :
  redis_tasks s !! ch = Some t -> task_done s t = false ->
  ensure_redis_subscription ch s = (s, Ok tt).
Proof.
  intros Ht Hd. unfold ensure_redis_subscription, bind, get. cbv beta iota.
  rewrite Ht, Hd. reflexivity.
Qed.

Lemma stop_redis_subscription_some ch s t :
  redis_tasks s !! ch = Some t ->
  stop_redis_subscription ch s = (upd_redis_tasks (delete ch) (cancel_task t s), Ok tt).
Proof. intros Ht. unfold stop_redis_subscription, bind, get. rewrite Ht. reflexivity. Qed.

Lemma stop_redis_subscription_none ch s :
  redis_tasks s !! ch = None -> stop_redis_subscription ch s = (s, Ok tt).
Proof. intros Ht. unfold stop_redis_subscription, bind, get. rewrite Ht. reflexivity. Qed.

Lemma subscribe_to_channel_eq c ch k s ci :
  connection_info s !! c = Some ci -> chan_key ch = Some k ->
  let s1 := upd_info (<[c := set_subscriptions (ci_subscriptions ci ++ [k]) ci]>)
              (upd_channels (add_index k c) s) in
  subscribe_to_channel send_raises redis_raises c ch s =
  (fst (send_to_connection send_raises redis_raises c (ack_message "subscribe" ch)
          (fst (ensure_redis_subscription k s1))), Ok true).
Proof.
  intros Ec Ek. cbn zeta. unfold subscribe_to_channel, bind at 1, get. rewrite Ec, Ek.
  unfold bind, modify. cbv beta iota.
  destruct (ensure_redis_subscription_eq k
    (upd_info (<[c:=set_subscriptions (ci_subscriptions ci ++ [k]) ci]>)
       (upd_channels (add_index k c) s))) as (rt & ts & nt & E). rewrite E. cbn [fst].
  match goal with
  | |- context [send_to_connection send_raises redis_raises c ?m ?s'] =>
      destruct (send_to_connection_never_raises send_raises redis_raises c m s')
        as [_ [b E2]]; rewrite E2
  end.
  reflexivity.
Qed.

Lemma unsubscribe_from_channel_eq c ch k s ci :
  connection_info s !! c = Some ci -> chan_key ch = Some k ->
  let s1 := upd_channels (discard_index k c) s in
  let s2 := if existsb (chan_key_eqb k) (ci_subscriptions ci)
            then upd_info (<[c := set_subscriptions (list_remove k (ci_subscriptions ci)) ci]>) s1
            else s1 in
  let s3 := if decide (dd_get (channel_subscriptions s1) k = ∅)
            then upd_channels (delete k) (fst (stop_redis_subscription k s2))
            else s2 in
  unsubscribe_from_channel send_raises redis_raises c ch s =
  (fst (send_to_connection send_raises redis_raises c (ack_message "unsubscribe" ch) s3), Ok true).
Proof.
  intros Ec Ek. cbn zeta. unfold unsubscribe_from_channel, bind at 1, get. rewrite Ec, Ek.
  set (s1 := upd_channels (discard_index k c) s).
  unfold bind at 1, modify at 1. fold s1.
  assert (E2 : exists s2, (if existsb (chan_key_eqb k) (ci_subscriptions ci)
       then modify (upd_info (<[c := set_subscriptions (list_remove k (ci_subscriptions ci)) ci]>))
       else ret tt) s1 = (s2, Ok tt) /\
       s2 = (if existsb (chan_key_eqb k) (ci_subscriptions ci)
            then upd_info (<[c := set_subscriptions (list_remove k (ci_subscriptions ci)) ci]>) s1
            else s1) /\ channel_subscriptions s2 = channel_subscriptions s1).
  { destruct (existsb _ _); eexists; (split; [reflexivity | split; reflexivity]). }
  destruct E2 as (s2 & E2 & Hs2 & Hc2). rewrite <- Hs2.
  unfold bind at 1. rewrite E2. unfold bind at 1. cbv beta iota. rewrite Hc2.
  destruct (decide (dd_get (channel_subscriptions s1) k = ∅)).
  - unfold bind at 1 2.
    destruct (stop_redis_subscription_eq k s2) as (rt & ts & E3). rewrite E3.
    unfold modify. cbn [fst].
    unfold bind.
    match goal with
    | |- context [send_to_connection send_raises redis_raises c ?m ?s'] =>
        destruct (send_to_connection_never_raises send_raises redis_raises c m s')
          as [_ [b E4]]; rewrite E4
    end.
    reflexivity.
  - unfold bind, ret.
    match goal with
    | |- context [send_to_connection send_raises redis_raises c ?m ?s'] =>
        destruct (send_to_connection_never_raises send_raises redis_raises c m s')
          as [_ [b E4]]; rewrite E4
    end.
    reflexivity.
Qed.

Lemma handle_heartbeat_eq c now s ci :
  connection_info s !! c = Some ci ->
  handle_heartbeat send_raises redis_raises c now s =
  (fst (send_to_connection send_raises redis_raises c (mkMessage HEARTBEAT [("status", JStr "alive")])
          (upd_info (<[c := set_last_heartbeat now ci]>) s)), Ok tt).
Proof.
  intros Ec. unfold handle_heartbeat, bind at 1, get. rewrite Ec.
  unfold bind, modify. cbv beta iota.
  match goal with
  | |- context [send_to_connection send_raises redis_raises c ?m ?s'] =>
      destruct (send_to_connection_never_raises send_raises redis_raises c m s')
        as [_ [b E4]]; rewrite E4
  end.
  reflexivity.
Qed.

End Closed_forms.

(** *** Redis bookkeeping, exactly *)

Section Redis_exact.

Variable send_raises : nat -> bool.
Variable redis_raises : string -> bool.

Lemma store_connection_in_redis_exact ci s :
  let key := get_tenant_key (ci_tenant_id ci) ("ws_connection:" +:+ ci_connection_id ci) in
  store_connection_in_redis redis_raises ci s =
  (upd_redis_keys (fun ks => if redis_raises key then ks else {[key]} ∪ ks) s, Ok tt).
Proof.
  cbn zeta.
  unfold store_connection_in_redis, redis_client_set, try_except, redis_set, raise, modify, ret.
  destruct (redis_raises _); reflexivity.
Qed.

Lemma remove_connection_from_redis_exact c s :
  let key := "ws_connection:" +:+ c in
  remove_connection_from_redis redis_raises c s =
  (upd_redis_keys (fun ks => if redis_raises key then ks else ks ∖ {[key]}) s, Ok tt).
Proof.
  cbn zeta. unfold remove_connection_from_redis, try_except, redis_delete, raise, modify, ret.
  destruct (redis_raises _); reflexivity.
Qed.

Lemma connect_exact h u t suffix now s :
  let c := connection_id_of u suffix in
  let key := get_tenant_key t ("ws_connection:" +:+ c) in
  connect send_raises redis_raises h u t suffix now s =
  (fst (send_to_connection send_raises redis_raises c (connect_ack_message c u t)
     (upd_redis_keys (fun ks => if redis_raises key then ks else {[key]} ∪ ks)
        (upd_tenants (add_index t c) (upd_users (add_index u c)
           (upd_info (<[c := mkConnectionInfo c u t now now []]>)
              (upd_active (<[c := h]>) s)))))), Ok c).
Proof.
  cbn zeta. unfold connect, bind, modify, ret. cbv beta iota.
  rewrite store_connection_in_redis_exact. cbv beta iota zeta.
  match goal with
  | |- context [send_to_connection send_raises redis_raises ?c ?m ?s'] =>
      destruct (send_to_connection_never_raises send_raises redis_raises c m s')
        as [_ [b E2]]; rewrite E2
  end.
  reflexivity.
Qed.

Lemma disconnect_registered_exact c h ci s :
  active_connections s !! c = Some h -> connection_info s !! c = Some ci ->
  let key := "ws_connection:" +:+ c in
  disconnect redis_raises c s =
  (upd_redis_keys (fun ks => if redis_raises key then ks else ks ∖ {[key]})
     (upd_info (delete c) (upd_active (delete c)
        (upd_tenants (prune_index (ci_tenant_id ci))
           (upd_users (prune_index (ci_user_id ci))
              (upd_channels (fun m => fold_left (fun m ch => discard_index ch c m)
                                        (ci_subscriptions ci) m)
                 (upd_tenants (discard_index (ci_tenant_id ci) c)
                    (upd_users (discard_index (ci_user_id ci) c) s))))))), Ok tt).
Proof.
  intros Ha Hi. cbn zeta. unfold disconnect, bind at 1, get. rewrite Ha, Hi.
  unfold bind, modify. cbv beta iota. rewrite for_each_discard_channels_unfolded.
  rewrite remove_connection_from_redis_exact. reflexivity.
Qed.

End Redis_exact.

(** Two managers with equal fields are equal. *)
Lemma Manager_ext (s s' : Manager) :
  active_connections s = active_connections s' ->
  connection_info s = connection_info s' ->
  user_connections s = user_connections s' ->
  tenant_connections s = tenant_connections s' ->
  channel_subscriptions s = channel_subscriptions s' ->
  redis_tasks s = redis_tasks s' ->
  tasks s = tasks s' ->
  next_task s = next_task s' ->
  redis_keys s = redis_keys s' ->
  sent s = sent s' -> s = s'.
Proof.
  destruct s, s'; cbn. intros -> -> -> -> -> -> -> -> -> ->. reflexivity.
Qed.

(** *** Index round trip *)

Lemma index_round_trip {K} `{Countable K} (m : gmap K (gset string)) k c :
  no_empty_entry m -> c ∉ dd_get m k ->
  prune_index k (discard_index k c (add_index k c m)) = m.
Proof.
  intros Hm Hc. unfold prune_index, discard_index, add_index, dd_get in *.
  set (X := default ∅ (m !! k)) in *.
  rewrite (lookup_insert_eq m k (X ∪ {[c]})). cbn [default]. unfold id.
  assert (E : (X ∪ {[c]}) ∖ {[c]} = X) by (apply set_eq; intros x; set_solver).
  rewrite E, (lookup_insert_eq _ k X), insert_insert_eq. cbn [default]. unfold id.
  unfold X in *. destruct (m !! k) as [Y|] eqn:Ek; cbn [default].
  - rewrite decide_False by exact (Hm k Y Ek). apply insert_id, Ek.
  - rewrite decide_True by reflexivity. apply delete_insert_id, Ek.
Qed.

(** [d[k0].discard(c)] followed by the pruning of [d[k0]] leaves every
    other id where it was. *)
Lemma elem_of_prune_discard_ne {K} `{Countable K} (m : gmap K (gset string)) k0 c c' k :
  c' ≠ c -> c' ∈ dd_get (prune_index k0 (discard_index k0 c m)) k <-> c' ∈ dd_get m k.
Proof.
  intros Hne. unfold prune_index, discard_index.
  case_decide as Hemp; unfold dd_get in *.
  - destruct (decide (k = k0)) as [->|Hk].
    + rewrite lookup_delete_eq. rewrite lookup_insert_eq in Hemp. cbn in *.
      split; [set_solver |]. intros Hin.
      assert (Hin' : c' ∈ default ∅ (m !! k0) ∖ {[c]}) by set_solver.
      rewrite Hemp in Hin'. set_solver.
    + rewrite lookup_delete_ne, lookup_insert_ne by congruence. reflexivity.
  - destruct (decide (k = k0)) as [->|Hk].
    + rewrite lookup_insert_eq. cbn. set_solver.
    + rewrite lookup_insert_ne by congruence. reflexivity.
Qed.

Lemma elem_of_discard_ne {K} `{Countable K} (m : gmap K (gset string)) k0 c c' k :
  c' ≠ c -> c' ∈ dd_get (discard_index k0 c m) k <-> c' ∈ dd_get m k.
Proof.
  intros Hne. unfold discard_index, dd_get.
  destruct (decide (k = k0)) as [->|Hk].
  - rewrite lookup_insert_eq. cbn. set_solver.
  - rewrite lookup_insert_ne by congruence. reflexivity.
Qed.

Lemma elem_of_fold_discard_ne (l : list ChanKey) (m : gmap ChanKey (gset string)) c c' k :
  c' ≠ c ->
  c' ∈ dd_get (fold_left (fun m ch => discard_index ch c m) l m) k <-> c' ∈ dd_get m k.
Proof.
  intros Hne. revert m. induction l as [|ch l IH]; intros m; [reflexivity |].
  cbn [fold_left]. rewrite IH. apply elem_of_discard_ne, Hne.
Qed.

(** *** The heartbeat scan *)

Section Scan.

Variable redis_raises : string -> bool.

Lemma heartbeat_scan_eq now s :
  heartbeat_scan redis_raises now s =
  for_each (timed_out (now - heartbeat_timeout) s) (fun c => disconnect redis_raises c) s.
Proof.
  unfold heartbeat_scan, try_except, bind at 1, get. cbv beta iota.
  set (l := timed_out (now - heartbeat_timeout) s).
  destruct (disconnect_loop redis_raises l s) as [H1 _].
  destruct (for_each l (fun c => disconnect redis_raises c) s) as [s' r] eqn:E.
  cbn in H1. subst r. reflexivity.
Qed.

Lemma disconnect_other c c' s :
  c' ≠ c ->
  active_connections (fst (disconnect redis_raises c s)) !! c' = active_connections s !! c' /\
  connection_info (fst (disconnect redis_raises c s)) !! c' = connection_info s !! c'.
Proof.
  intros Hne. rewrite disconnect_active, disconnect_info.
  rewrite lookup_delete_ne by congruence. split; [reflexivity |].
  destruct (active_connections s !! c); [| reflexivity].
  rewrite lookup_delete_ne by congruence. reflexivity.
Qed.

Lemma disconnect_loop_notin (l : list string) c s :
  ~ In c l ->
  active_connections (fst (for_each l (fun c => disconnect redis_raises c) s)) !! c =
    active_connections s !! c /\
  connection_info (fst (for_each l (fun c => disconnect redis_raises c) s)) !! c =
    connection_info s !! c.
Proof.
  revert s. induction l as [|x l IH]; intros s Hn; [split; reflexivity |].
  rewrite for_each_disconnect_cons.
  assert (Hx : c ≠ x) by (intros ->; apply Hn; left; reflexivity).
  destruct (IH (fst (disconnect redis_raises x s))) as [IH1 IH2];
    [intros Hc; apply Hn; right; exact Hc |].
  destruct (disconnect_other x c s Hx) as [D1 D2].
  rewrite IH1, IH2, D1, D2. split; reflexivity.
Qed.

Lemma timed_out_not_In thr s c :
  (forall ci, connection_info s !! c = Some ci -> (thr <= ci_last_heartbeat ci)%Z) ->
  ~ In c (timed_out thr s).
Proof.
  intros H Hin. unfold timed_out in Hin.
  apply in_map_iff in Hin as [[c0 ci] [Heq Hf]]. cbn in Heq. subst c0.
  apply List.filter_In in Hf as [Hm Hlt].
  apply list_elem_of_In, elem_of_map_to_list in Hm. cbn in Hlt.
  apply Z.ltb_lt in Hlt. specialize (H ci Hm). lia.
Qed.

End Scan.

(** *** Inbound frames and the set-up of a connection *)

Lemma parse_message_state pv v s :
  parse_message pv v s = (s, snd (parse_message pv v s)).
Proof. unfold parse_message. repeat case_match; reflexivity. Qed.

Lemma parse_notification_state pv v s :
  parse_notification pv v s = (s, snd (parse_notification pv v s)).
Proof. unfold parse_notification. repeat case_match; reflexivity. Qed.

Section Unknown_connection.

Variable send_raises : nat -> bool.
Variable redis_raises : string -> bool.
Variable pv : Validators.
Variable c : string.
Variable s : Manager.
Hypothesis Ha : active_connections s !! c = None.
Hypothesis Hi : connection_info s !! c = None.

Lemma send_error_unknown code msg :
  send_error send_raises redis_raises c code msg s = (s, Ok tt).
Proof. rewrite send_error_eq, send_to_connection_eq, Ha. reflexivity. Qed.

Lemma channel_action_unknown (f : string -> JVal -> M bool) v :
  (forall ch, f c ch s = (s, Ok false)) -> channel_action f c v s = (s, Ok tt).
Proof.
  intros Hf. unfold channel_action.
  destruct v as [v|]; [| reflexivity]. destruct (truthy v); [| reflexivity].
  unfold bind. rewrite Hf. reflexivity.
Qed.

Lemma handle_message_unknown v now :
  handle_message send_raises redis_raises pv c v now s = (s, Ok tt).
Proof.
  unfold handle_message, try_except, bind at 1. rewrite parse_message_state.
  destruct (snd (parse_message pv v s)) as [msg|e]; [| apply send_error_unknown].
  assert (Hsub : forall ch, subscribe_to_channel send_raises redis_raises c ch s = (s, Ok false))
    by (intros ch; unfold subscribe_to_channel, bind, get; rewrite Hi; reflexivity).
  assert (Hunsub : forall ch, unsubscribe_from_channel send_raises redis_raises c ch s = (s, Ok false))
    by (intros ch; unfold unsubscribe_from_channel, bind, get; rewrite Hi; reflexivity).
  destruct (msg_type msg); try reflexivity.
  - rewrite (channel_action_unknown _ _ Hsub). reflexivity.
  - rewrite (channel_action_unknown _ _ Hunsub). reflexivity.
  - unfold handle_heartbeat, bind, get. rewrite Hi. reflexivity.
Qed.

End Unknown_connection.

Section Open.

Variable send_raises : nat -> bool.
Variable redis_raises : string -> bool.

Lemma offline_loop c h (offline : list JVal) s :
  active_connections s !! c = Some h -> send_raises h = false ->
  for_each offline (fun n =>
    send_to_connection send_raises redis_raises c (offline_message n) ;;; ret tt) s =
  (upd_sent (fun l => l ++ map (fun n => (h, offline_message n)) offline) s, Ok tt).
Proof.
  intros Ha Hh. revert s Ha. induction offline as [|n offline IH]; intros s Ha.
  - unfold upd_sent. cbn. rewrite app_nil_r. reflexivity.
  - cbn [for_each]. unfold bind at 1 2.
    rewrite send_to_connection_eq, Ha, Hh. unfold ret at 1.
    rewrite IH by exact Ha. unfold upd_sent. cbn. rewrite <- app_assoc. reflexivity.
Qed.

End Open.

Lemma bind_ok_eq {A B} (m : M A) (k : A -> M B) s s1 a :
  m s = (s1, Ok a) -> bind m k s = k a s1.
Proof. intros E. unfold bind. rewrite E. reflexivity. Qed.

Section Open_steps.

Variable send_raises : nat -> bool.
Variable redis_raises : string -> bool.

(** [connect] over a working transport: the id is registered with a fresh
    [ConnectionInfo] and the acknowledgement is the last message sent. *)
Lemma connect_steps h u t suffix now s :
  send_raises h = false ->
  let c := connection_id_of u suffix in
  connect send_raises redis_raises h u t suffix now s =
    (fst (connect send_raises redis_raises h u t suffix now s), Ok c) /\
  active_connections (fst (connect send_raises redis_raises h u t suffix now s)) !! c = Some h /\
  connection_info (fst (connect send_raises redis_raises h u t suffix now s)) !! c =
    Some (mkConnectionInfo c u t now now []) /\
  sent (fst (connect send_raises redis_raises h u t suffix now s)) =
    sent s ++ [(h, connect_ack_message c u t)].
Proof.
  intros Hh. cbn zeta.
  rewrite (connect_exact send_raises redis_raises h u t suffix now s). cbn [fst].
  rewrite (send_to_connection_eq send_raises redis_raises).
  cbn [active_connections upd_redis_keys upd_tenants upd_users upd_info upd_active].
  rewrite lookup_insert_eq, Hh. cbn [fst].
  unfold upd_sent.
  cbn [active_connections connection_info sent upd_redis_keys upd_tenants upd_users
       upd_info upd_active].
  rewrite !lookup_insert_eq. split; [reflexivity |]. split; [reflexivity |].
  split; reflexivity.
Qed.

(** [subscribe_to_channel] of a registered id over a working transport. *)
Lemma subscribe_steps c ch k h ci s :
  send_raises h = false -> chan_key ch = Some k ->
  active_connections s !! c = Some h -> connection_info s !! c = Some ci ->
  subscribe_to_channel send_raises redis_raises c ch s =
    (fst (subscribe_to_channel send_raises redis_raises c ch s), Ok true) /\
  active_connections (fst (subscribe_to_channel send_raises redis_raises c ch s)) !! c =
    Some h /\
  connection_info (fst (subscribe_to_channel send_raises redis_raises c ch s)) !! c =
    Some (set_subscriptions (ci_subscriptions ci ++ [k]) ci) /\
  sent (fst (subscribe_to_channel send_raises redis_raises c ch s)) =
    sent s ++ [(h, ack_message "subscribe" ch)].
Proof.
  intros Hh Ek Ha Hi.
  pose proof (subscribe_to_channel_eq send_raises redis_raises c ch k s ci Hi Ek) as E.
  cbn zeta in E. rewrite E.
  destruct (ensure_redis_subscription_eq k
    (upd_info (<[c:=set_subscriptions (ci_subscriptions ci ++ [k]) ci]>)
       (upd_channels (add_index k c) s))) as (rt & ts & nt & E2). rewrite E2. cbn [fst].
  rewrite (send_to_connection_eq send_raises redis_raises).
  cbn [active_connections upd_next_task upd_tasks upd_redis_tasks upd_info upd_channels].
  rewrite Ha, Hh. cbn [fst]. unfold upd_sent.
  cbn [active_connections connection_info sent upd_next_task upd_tasks upd_redis_tasks
       upd_info upd_channels].
  rewrite lookup_insert_eq. split; [reflexivity |]. split; [exact Ha |].
  split; reflexivity.
Qed.

End Open_steps.

(** [disconnect] of one id leaves every other id in the index sets where
    it was. *)
Lemma disconnect_keeps_other_members (redis_raises : string -> bool) c c' s :
  c' ≠ c ->
  (forall u, c' ∈ dd_get (user_connections (fst (disconnect redis_raises c s))) u <->
             c' ∈ dd_get (user_connections s) u) /\
  (forall t, c' ∈ dd_get (tenant_connections (fst (disconnect redis_raises c s))) t <->
             c' ∈ dd_get (tenant_connections s) t) /\
  (forall ch, c' ∈ dd_get (channel_subscriptions (fst (disconnect redis_raises c s))) ch <->
              c' ∈ dd_get (channel_subscriptions s) ch).
Proof.
  intros Hne.
  destruct (active_connections s !! c) as [h|] eqn:Ea.
  2: { rewrite (disconnect_inactive redis_raises c s Ea). cbn [fst].
       split; [| split]; intros; reflexivity. }
  destruct (connection_info s !! c) as [ci|] eqn:Ei.
  - rewrite (disconnect_registered_exact redis_raises c h ci s Ea Ei). cbn [fst].
    cbn [user_connections tenant_connections channel_subscriptions upd_redis_keys
         upd_info upd_active upd_tenants upd_users upd_channels].
    split; [| split]; intros k.
    + apply elem_of_prune_discard_ne, Hne.
    + apply elem_of_prune_discard_ne, Hne.
    + apply elem_of_fold_discard_ne, Hne.
  - destruct (disconnect_active_eq redis_raises c h s Ea) as [ks E]. rewrite E, Ei.
    cbn [fst user_connections tenant_connections channel_subscriptions upd_redis_keys
         upd_info upd_active].
    split; [| split]; intros; reflexivity.
Qed.

(** [channel_action] on a truthy channel runs the action and drops its
    result; an exception of the action propagates. *)
Lemma channel_action_truthy_ok (f : string -> JVal -> M bool) c ch s s' b :
  truthy ch = true -> f c ch s = (s', Ok b) -> channel_action f c (Some ch) s = (s', Ok tt).
Proof. intros Ht Hf. unfold channel_action. rewrite Ht. unfold bind. rewrite Hf. reflexivity. Qed.

Lemma channel_action_truthy_raises (f : string -> JVal -> M bool) c ch s s' e :
  truthy ch = true -> f c ch s = (s', Raised e) ->
  channel_action f c (Some ch) s = (s', Raised e).
Proof. intros Ht Hf. unfold channel_action. rewrite Ht. unfold bind. rewrite Hf. reflexivity. Qed.

(** A channel that is no dict key (a list or an object) makes
    [subscribe_to_channel] and [unsubscribe_from_channel] of a registered
    id raise [TypeError] before any change. *)
Lemma subscribe_to_channel_unhashable send_raises redis_raises c ch s ci :
  connection_info s !! c = Some ci -> chan_key ch = None ->
  subscribe_to_channel send_raises redis_raises c ch s = (s, Raised TypeError).
Proof. intros Hi Hk. unfold subscribe_to_channel, bind, get. rewrite Hi, Hk. reflexivity. Qed.

Lemma unsubscribe_from_channel_unhashable send_raises redis_raises c ch s ci :
  connection_info s !! c = Some ci -> chan_key ch = None ->
  unsubscribe_from_channel send_raises redis_raises c ch s = (s, Raised TypeError).
Proof. intros Hi Hk. unfold unsubscribe_from_channel, bind, get. rewrite Hi, Hk. reflexivity. Qed.

(** ** Further properties of the code *)

(** X1: in every state reachable from an empty manager (any sequence of
    connections, frames, closes, heartbeat scans and task exits, whatever
    the transports and Redis do), an id is in [active_connections] exactly
    when it has a Connection record in [connection_info]. *)
Theorem run_events_registry_keys_agree
    (send_raises : nat -> bool) (redis_raises : string -> bool) (pv : Validators)
    (evs : list Event) (c : string) :
  let s := run_events send_raises redis_raises pv evs empty_manager in
  is_Some (active_connections s !! c) <-> is_Some (connection_info s !! c).
Proof.
  cbn zeta.
  destruct (registry_ok_run_events send_raises redis_raises pv evs empty_manager
              registry_ok_empty) as [Hd _].
  apply Hd.
Qed.

(** X2: in every reachable state, the user index and the tenant index
    never map a key to the empty set: [disconnect] deletes the user and
    tenant entries it empties. *)
Theorem run_events_user_tenant_indexes_nonempty
    (send_raises : nat -> bool) (redis_raises : string -> bool) (pv : Validators) (evs : list Event) :
  let s := run_events send_raises redis_raises pv evs empty_manager in
  no_empty_entry (user_connections s) /\ no_empty_entry (tenant_connections s).
Proof.
  cbn zeta.
  destruct (registry_ok_run_events send_raises redis_raises pv evs empty_manager
              registry_ok_empty) as [_ H].
  exact H.
Qed.

(** X3: [handle_message] never raises, whatever the frame and the
    transports do; so the generic [except Exception] branch of the
    endpoint's receive loop never runs for a decoded frame. *)
Theorem handle_message_never_raises
    (send_raises : nat -> bool) (redis_raises : string -> bool) (pv : Validators)
    (c : string) (v : JVal) (now : Z) (s : Manager) :
  snd (handle_message send_raises redis_raises pv c v now s) = Ok tt /\
  endpoint_receive send_raises redis_raises pv c (Some v) now s =
  handle_message send_raises redis_raises pv c v now s.
Proof.
  split; [apply handle_message_ok |].
  unfold endpoint_receive, try_except.
  pose proof (handle_message_ok send_raises redis_raises pv c v now s) as H.
  destruct (handle_message send_raises redis_raises pv c v now s) as [s' r].
  cbn in H. subst r. reflexivity.
Qed.

(** X4: a decoded frame that is not a valid [WebSocketMessage] gets
    exactly one [error] frame with code [message_error] on a working
    transport, and nothing else changes. *)
Theorem handle_message_invalid_frame_reply
    (send_raises : nat -> bool) (redis_raises : string -> bool) (pv : Validators)
    (c : string) (v : JVal) (now : Z) (s : Manager) (h : nat) (e : Exn)
    (Hparse : parse_message pv v s = (s, Raised e))
    (Ha : active_connections s !! c = Some h) (Hh : send_raises h = false) :
  handle_message send_raises redis_raises pv c v now s =
  (upd_sent (fun l => l ++ [(h, mkMessage ERROR
                                  (websocket_error_dict "message_error" (exn_message e)))]) s,
   Ok tt).
Proof.
  unfold handle_message, try_except, bind at 1. rewrite Hparse.
  rewrite send_error_eq, send_to_connection_eq, Ha, Hh. reflexivity.
Qed.

Lemma handle_message_invalid_frame_reply_witness :
  parse_message sample_validators (JArr []) opened_a = (opened_a, Raised TypeError) /\
  handle_message never_raises_nat never_raises_key sample_validators "1_aaaaaaaa" (JArr []) 1 opened_a =
  (upd_sent (fun l => l ++ [(10, mkMessage ERROR
                                   (websocket_error_dict "message_error" "type error"))]) opened_a,
   Ok tt).
Proof.
  split; [reflexivity |].
  apply (handle_message_invalid_frame_reply never_raises_nat never_raises_key sample_validators
           "1_aaaaaaaa" (JArr []) 1 opened_a 10 TypeError);
    [reflexivity | vm_compute; reflexivity | reflexivity].
Defined.

(** X5: a valid frame whose type is neither [subscribe], [unsubscribe]
    nor [heartbeat] ([connect], [disconnect], [notification], [error],
    [ack]) is ignored: no state change and no reply. *)
Theorem handle_message_ignores_other_types
    (send_raises : nat -> bool) (redis_raises : string -> bool) (pv : Validators)
    (c : string) (v : JVal) (now : Z) (s : Manager) (msg : WebSocketMessage)
    (Hparse : parse_message pv v s = (s, Ok msg))
    (Hty : msg_type msg <> SUBSCRIBE /\ msg_type msg <> UNSUBSCRIBE /\ msg_type msg <> HEARTBEAT) :
  handle_message send_raises redis_raises pv c v now s = (s, Ok tt).
Proof.
  unfold handle_message, try_except, bind at 1. rewrite Hparse.
  destruct Hty as (H1 & H2 & H3).
  destruct (msg_type msg); try contradiction; reflexivity.
Qed.

Lemma handle_message_ignores_other_types_witness :
  handle_message never_raises_nat never_raises_key sample_validators "1_aaaaaaaa"
    (JObj [("type", JStr "ack")]) 1 opened_a = (opened_a, Ok tt).
Proof.
  apply (handle_message_ignores_other_types never_raises_nat never_raises_key sample_validators
           "1_aaaaaaaa" (JObj [("type", JStr "ack")]) 1 opened_a (mkMessage ACK []));
    [reflexivity | split; [discriminate | split; discriminate]].
Defined.

(** X6: a [subscribe] or [unsubscribe] frame whose [channel] is missing
    or falsy (an empty string, [null], [0], ...) is ignored: no state
    change and no reply. *)
Theorem handle_message_ignores_falsy_channel
    (send_raises : nat -> bool) (redis_raises : string -> bool) (pv : Validators)
    (c : string) (v : JVal) (now : Z) (s : Manager) (msg : WebSocketMessage)
    (Hparse : parse_message pv v s = (s, Ok msg))
    (Hty : msg_type msg = SUBSCRIBE \/ msg_type msg = UNSUBSCRIBE)
    (Hch : forall x, dict_get "channel" (msg_data msg) = Some x -> truthy x = false) :
  handle_message send_raises redis_raises pv c v now s = (s, Ok tt).
Proof.
  unfold handle_message, try_except, bind at 1. rewrite Hparse.
  unfold channel_action.
  destruct Hty as [E|E]; rewrite E;
    (destruct (dict_get "channel" (msg_data msg)) as [x|] eqn:Ed;
     [rewrite (Hch x eq_refl) |]; reflexivity).
Qed.

Lemma handle_message_ignores_falsy_channel_witness :
  handle_message never_raises_nat never_raises_key sample_validators "1_aaaaaaaa"
    (JObj [("type", JStr "subscribe"); ("data", JObj [("channel", JStr "")])]) 1 opened_a =
  (opened_a, Ok tt).
Proof.
  apply (handle_message_ignores_falsy_channel never_raises_nat never_raises_key sample_validators
           "1_aaaaaaaa" (JObj [("type", JStr "subscribe"); ("data", JObj [("channel", JStr "")])])
           1 opened_a (mkMessage SUBSCRIBE [("channel", JStr "")])).
  - reflexivity.
  - left. reflexivity.
  - intros x Hx. vm_compute in Hx. injection Hx as <-. reflexivity.
Defined.

(** X7: a frame (valid, invalid or undecodable) received for an id that
    is neither in [active_connections] nor in [connection_info], as after
    the connection was torn down by a failed send, changes nothing and
    sends nothing. *)
Theorem endpoint_receive_unknown_connection
    (send_raises : nat -> bool) (redis_raises : string -> bool) (pv : Validators)
    (c : string) (frame : option JVal) (now : Z) (s : Manager)
    (Ha : active_connections s !! c = None) (Hi : connection_info s !! c = None) :
  endpoint_receive send_raises redis_raises pv c frame now s = (s, Ok tt).
Proof.
  unfold endpoint_receive. destruct frame as [v|].
  - unfold try_except. rewrite (handle_message_unknown send_raises redis_raises pv c s Ha Hi).
    reflexivity.
  - apply (send_error_unknown send_raises redis_raises c s Ha).
Qed.

Lemma endpoint_receive_unknown_connection_witness :
  endpoint_receive never_raises_nat never_raises_key sample_validators "9_zzzzzzzz"
    (subscribe_frame "deals") 1 opened_a = (opened_a, Ok tt).
Proof.
  apply endpoint_receive_unknown_connection; vm_compute; reflexivity.
Defined.

(** X8: subscribing a registered connection with a working transport
    returns [True], puts the id in the channel's index set, appends the
    channel to the connection's [subscriptions], leaves a bus listener
    for the channel registered and not done, and sends one [ack] frame.
    The channel is any hashable JSON value (a string, a number, a
    boolean); [k] is the dict key it denotes. *)
Theorem subscribe_to_channel_registers
    (send_raises : nat -> bool) (redis_raises : string -> bool)
    (c : string) (ch : JVal) (k : ChanKey) (s : Manager) (ci : ConnectionInfo) (h : nat)
    (Hk : chan_key ch = Some k) (Hi : connection_info s !! c = Some ci)
    (Ha : active_connections s !! c = Some h) (Hh : send_raises h = false) :
  let res := subscribe_to_channel send_raises redis_raises c ch s in
  snd res = Ok true /\
  c ∈ dd_get (channel_subscriptions (fst res)) k /\
  connection_info (fst res) !! c = Some (set_subscriptions (ci_subscriptions ci ++ [k]) ci) /\
  (exists t, redis_tasks (fst res) !! k = Some t /\ task_done (fst res) t = false) /\
  sent (fst res) = sent s ++ [(h, ack_message "subscribe" ch)].
Proof.
  cbn zeta. rewrite (subscribe_to_channel_eq send_raises redis_raises c ch k s ci Hi Hk).
  cbn zeta.
  set (s1 := upd_info (<[c := set_subscriptions (ci_subscriptions ci ++ [k]) ci]>)
               (upd_channels (add_index k c) s)).
  destruct (ensure_redis_subscription_live k s1) as [t [Ht Hd]].
  destruct (ensure_redis_subscription_eq k s1) as (rt & ts & nt & E).
  rewrite E in Ht, Hd |- *. cbn [fst snd].
  rewrite (send_to_connection_eq send_raises redis_raises). cbn [active_connections].
  unfold s1. cbn [upd_next_task upd_tasks upd_redis_tasks upd_info upd_channels active_connections].
  rewrite Ha, Hh. cbn [fst].
  split; [reflexivity |]. split; [apply elem_of_add_index |].
  split; [apply lookup_insert_eq |]. split; [exists t; split; assumption |].
  reflexivity.
Qed.

Lemma subscribe_to_channel_registers_witness :
  let res := subscribe_to_channel never_raises_nat never_raises_key
               "1_aaaaaaaa" (JStr "deals") opened_a in
  snd res = Ok true /\ "1_aaaaaaaa" ∈ dd_get (channel_subscriptions (fst res)) (KStr "deals").
Proof.
  destruct (subscribe_to_channel_registers never_raises_nat never_raises_key
              "1_aaaaaaaa" (JStr "deals") (KStr "deals") opened_a
              (mkConnectionInfo "1_aaaaaaaa" 1 7 0 0
                 [KStr "user:1:notifications"; KStr "tenant:broadcast"]) 10)
    as (H1 & H2 & _);
    [reflexivity | vm_compute; reflexivity | vm_compute; reflexivity | reflexivity |].
  split; [exact H1 | exact H2].
Defined.

(** X9: [_ensure_redis_subscription] is idempotent: right after it has
    run for a channel, a second call for the same channel starts no task
    and changes nothing. *)
Theorem ensure_redis_subscription_idempotent (ch : string) (s : Manager) :
  let s1 := fst (ensure_redis_subscription ch s) in
  ensure_redis_subscription ch s1 = (s1, Ok tt).
Proof.
  cbn zeta. destruct (ensure_redis_subscription_live ch s) as [t [Ht Hd]].
  apply (ensure_redis_subscription_noop _ _ t Ht Hd).
Qed.

(** X10: when the last subscriber of a channel unsubscribes (registered,
    working transport), the channel's index entry and its [redis_tasks]
    entry are deleted, the listener task is no longer running (its
    cancellation is requested), the call returns [True] and one [ack]
    frame is sent. *)
Theorem unsubscribe_last_subscriber_stops_listener
    (send_raises : nat -> bool) (redis_raises : string -> bool)
    (c : string) (ch : JVal) (k : ChanKey) (s : Manager) (ci : ConnectionInfo) (h t : nat)
    (Hk : chan_key ch = Some k) (Hi : connection_info s !! c = Some ci)
    (Ha : active_connections s !! c = Some h) (Hh : send_raises h = false)
    (Hlast : dd_get (channel_subscriptions s) k ⊆ {[c]})
    (Ht : redis_tasks s !! k = Some t) :
  let res := unsubscribe_from_channel send_raises redis_raises c ch s in
  snd res = Ok true /\
  channel_subscriptions (fst res) !! k = None /\
  redis_tasks (fst res) !! k = None /\
  (forall tk, tasks (fst res) !! t = Some tk -> task_status tk <> Running) /\
  sent (fst res) = sent s ++ [(h, ack_message "unsubscribe" ch)].
Proof.
  cbn zeta. rewrite (unsubscribe_from_channel_eq send_raises redis_raises c ch k s ci Hi Hk).
  cbn zeta.
  assert (Hemp : dd_get (channel_subscriptions (upd_channels (discard_index k c) s)) k = ∅).
  { cbn. unfold dd_get, discard_index in *. rewrite lookup_insert_eq. cbn.
    apply set_eq. intros x. set_solver. }
  rewrite decide_True by exact Hemp.
  set (s2 := if existsb (chan_key_eqb k) (ci_subscriptions ci)
             then upd_info (<[c := set_subscriptions (list_remove k (ci_subscriptions ci)) ci]>)
                    (upd_channels (discard_index k c) s)
             else upd_channels (discard_index k c) s).
  assert (F : active_connections s2 = active_connections s /\ redis_tasks s2 = redis_tasks s /\
              tasks s2 = tasks s /\ sent s2 = sent s)
    by (unfold s2; destruct (existsb _ _); repeat split).
  destruct F as (F1 & F2 & F3 & F4).
  rewrite (stop_redis_subscription_some k s2 t) by (rewrite F2; exact Ht).
  cbn [fst]. rewrite (send_to_connection_eq send_raises redis_raises).
  cbn [active_connections upd_channels upd_redis_tasks cancel_task upd_tasks].
  rewrite F1, Ha, Hh. cbn [fst snd].
  split; [reflexivity |]. split; [apply lookup_delete_eq |].
  split; [apply lookup_delete_eq |]. split.
  - intros tk. cbn. rewrite lookup_alter_eq, F3.
    destruct (tasks s !! t) as [tk0|]; cbn; [| discriminate].
    intros E. injection E as <-.
    destruct (task_status tk0) eqn:Es; cbn; [discriminate | rewrite Es; discriminate ..].
  - cbn. rewrite F4. reflexivity.
Qed.

Lemma unsubscribe_last_subscriber_stops_listener_witness :
  let res := unsubscribe_from_channel never_raises_nat never_raises_key
               "1_aaaaaaaa" (JStr "tenant:broadcast") opened_a in
  snd res = Ok true /\ redis_tasks (fst res) !! KStr "tenant:broadcast" = None.
Proof.
  destruct (unsubscribe_last_subscriber_stops_listener never_raises_nat never_raises_key
              "1_aaaaaaaa" (JStr "tenant:broadcast") (KStr "tenant:broadcast") opened_a
              (mkConnectionInfo "1_aaaaaaaa" 1 7 0 0
                 [KStr "user:1:notifications"; KStr "tenant:broadcast"])
              10 1) as (H1 & _ & H3 & _).
  - reflexivity.
  - vm_compute. reflexivity.
  - vm_compute. reflexivity.
  - reflexivity.
  - apply (bool_decide_unpack _). vm_compute. exact I.
  - vm_compute. reflexivity.
  - split; [exact H1 | exact H3].
Defined.

(** X11: while another connection stays subscribed to the channel, an
    unsubscribe (registered, working transport) removes only the caller
    from the channel's index set and leaves the bus listener and all
    tasks as they were. *)
Theorem unsubscribe_keeps_listener_for_others
    (send_raises : nat -> bool) (redis_raises : string -> bool)
    (c c' : string) (ch : JVal) (k : ChanKey) (s : Manager) (ci : ConnectionInfo) (h : nat)
    (Hk : chan_key ch = Some k) (Hi : connection_info s !! c = Some ci)
    (Ha : active_connections s !! c = Some h) (Hh : send_raises h = false)
    (Hne : c' <> c) (Hother : c' ∈ dd_get (channel_subscriptions s) k) :
  let res := unsubscribe_from_channel send_raises redis_raises c ch s in
  snd res = Ok true /\
  (c ∉ dd_get (channel_subscriptions (fst res)) k) /\
  c' ∈ dd_get (channel_subscriptions (fst res)) k /\
  redis_tasks (fst res) = redis_tasks s /\
  tasks (fst res) = tasks s.
Proof.
  cbn zeta. rewrite (unsubscribe_from_channel_eq send_raises redis_raises c ch k s ci Hi Hk).
  cbn zeta.
  assert (Hin : c' ∈ dd_get (channel_subscriptions (upd_channels (discard_index k c) s)) k)
    by (cbn; apply elem_of_discard_ne; assumption).
  rewrite decide_False by (intros E; rewrite E in Hin; set_solver).
  set (s2 := if existsb (chan_key_eqb k) (ci_subscriptions ci)
             then upd_info (<[c := set_subscriptions (list_remove k (ci_subscriptions ci)) ci]>)
                    (upd_channels (discard_index k c) s)
             else upd_channels (discard_index k c) s).
  assert (F : active_connections s2 = active_connections s /\ redis_tasks s2 = redis_tasks s /\
              tasks s2 = tasks s /\
              channel_subscriptions s2 = discard_index k c (channel_subscriptions s))
    by (unfold s2; destruct (existsb _ _); repeat split).
  destruct F as (F1 & F2 & F3 & F4).
  rewrite (send_to_connection_eq send_raises redis_raises), F1, Ha, Hh. cbn [fst snd].
  cbn [channel_subscriptions redis_tasks tasks upd_sent].
  rewrite F2, F3, F4.
  split; [reflexivity |]. split; [| split; [| split; reflexivity]].
  - unfold dd_get, discard_index. rewrite lookup_insert_eq. cbn. set_solver.
  - apply elem_of_discard_ne; assumption.
Qed.

Lemma unsubscribe_keeps_listener_for_others_witness :
  let res := unsubscribe_from_channel never_raises_nat never_raises_key
               "1_aaaaaaaa" (JStr "tenant:broadcast") opened_a_b in
  snd res = Ok true /\ redis_tasks (fst res) = redis_tasks opened_a_b.
Proof.
  destruct (unsubscribe_keeps_listener_for_others never_raises_nat never_raises_key
              "1_aaaaaaaa" "2_bbbbbbbb" (JStr "tenant:broadcast") (KStr "tenant:broadcast")
              opened_a_b
              (mkConnectionInfo "1_aaaaaaaa" 1 7 0 0
                 [KStr "user:1:notifications"; KStr "tenant:broadcast"])
              10) as (H1 & _ & _ & H4 & _).
  - reflexivity.
  - vm_compute. reflexivity.
  - vm_compute. reflexivity.
  - reflexivity.
  - discriminate.
  - apply (bool_decide_unpack _). vm_compute. exact I.
  - split; [exact H1 | exact H4].
Defined.

(** X12: unsubscribing (registered, working transport) from a channel the
    connection is not subscribed to still returns [True] and sends an
    [ack] frame, and leaves its Connection record and every channel's
    index set as they were. *)
Theorem unsubscribe_from_unsubscribed_channel
    (send_raises : nat -> bool) (redis_raises : string -> bool)
    (c : string) (ch : JVal) (k : ChanKey) (s : Manager) (ci : ConnectionInfo) (h : nat)
    (Hk : chan_key ch = Some k) (Hi : connection_info s !! c = Some ci)
    (Ha : active_connections s !! c = Some h) (Hh : send_raises h = false)
    (Hnot : ~ In k (ci_subscriptions ci))
    (Hnotin : c ∉ dd_get (channel_subscriptions s) k) :
  let res := unsubscribe_from_channel send_raises redis_raises c ch s in
  snd res = Ok true /\
  connection_info (fst res) = connection_info s /\
  (forall ch', dd_get (channel_subscriptions (fst res)) ch' =
               dd_get (channel_subscriptions s) ch') /\
  sent (fst res) = sent s ++ [(h, ack_message "unsubscribe" ch)].
Proof.
  cbn zeta. rewrite (unsubscribe_from_channel_eq send_raises redis_raises c ch k s ci Hi Hk).
  cbn zeta.
  assert (Hex : existsb (chan_key_eqb k) (ci_subscriptions ci) = false).
  { apply Bool.not_true_iff_false. intros Hx. apply existsb_exists in Hx as [y [Hy Hy']].
    unfold chan_key_eqb in Hy'. apply bool_decide_eq_true in Hy'. subst y. exact (Hnot Hy). }
  rewrite Hex.
  assert (Hsame : dd_get (discard_index k c (channel_subscriptions s)) k =
                  dd_get (channel_subscriptions s) k).
  { unfold dd_get at 1, discard_index. rewrite lookup_insert_eq. cbn.
    apply set_eq. intros x. set_solver. }
  assert (Hother : forall ch', ch' <> k ->
            dd_get (discard_index k c (channel_subscriptions s)) ch' =
            dd_get (channel_subscriptions s) ch').
  { intros ch' Hne. unfold dd_get, discard_index. rewrite lookup_insert_ne by congruence.
    reflexivity. }
  destruct (decide (dd_get (channel_subscriptions (upd_channels (discard_index k c) s)) k = ∅))
    as [Hemp|Hemp].
  - destruct (stop_redis_subscription_eq k (upd_channels (discard_index k c) s))
      as (rt & ts & E). rewrite E. cbn [fst].
    rewrite (send_to_connection_eq send_raises redis_raises). cbn [active_connections
      upd_channels upd_tasks upd_redis_tasks]. rewrite Ha, Hh. cbn [fst snd].
    split; [reflexivity |]. split; [reflexivity |]. split; [| reflexivity].
    intros ch'. cbn. destruct (decide (ch' = k)) as [->|Hne].
    + unfold dd_get at 1. rewrite lookup_delete_eq. cbn in Hemp.
      rewrite Hsame in Hemp. rewrite Hemp. reflexivity.
    + unfold dd_get at 1. rewrite lookup_delete_ne by congruence.
      apply Hother, Hne.
  - rewrite (send_to_connection_eq send_raises redis_raises). cbn [active_connections
      upd_channels]. rewrite Ha, Hh. cbn [fst snd].
    split; [reflexivity |]. split; [reflexivity |]. split; [| reflexivity].
    intros ch'. cbn. destruct (decide (ch' = k)) as [->|Hne].
    + exact Hsame.
    + apply Hother, Hne.
Qed.

Lemma unsubscribe_from_unsubscribed_channel_witness :
  let res := unsubscribe_from_channel never_raises_nat never_raises_key
               "1_aaaaaaaa" (JStr "deals") opened_a in
  snd res = Ok true /\ connection_info (fst res) = connection_info opened_a.
Proof.
  destruct (unsubscribe_from_unsubscribed_channel never_raises_nat never_raises_key
              "1_aaaaaaaa" (JStr "deals") (KStr "deals") opened_a
              (mkConnectionInfo "1_aaaaaaaa" 1 7 0 0
                 [KStr "user:1:notifications"; KStr "tenant:broadcast"])
              10) as (H1 & H2 & _).
  - reflexivity.
  - vm_compute. reflexivity.
  - vm_compute. reflexivity.
  - reflexivity.
  - cbn. intros [H|[H|[]]]; discriminate.
  - apply (proj1 (bool_decide_eq_false _)). vm_compute. reflexivity.
  - split; [exact H1 | exact H2].
Defined.

(** X13: a valid [heartbeat] frame from a registered connection with a
    working transport sets its [last_heartbeat] to the current time and
    gets one [heartbeat] frame with status [alive] back; nothing else
    changes. *)
Theorem heartbeat_frame_refreshes_connection
    (send_raises : nat -> bool) (redis_raises : string -> bool) (pv : Validators)
    (c : string) (v : JVal) (now : Z) (s : Manager) (msg : WebSocketMessage)
    (ci : ConnectionInfo) (h : nat)
    (Hparse : parse_message pv v s = (s, Ok msg)) (Hty : msg_type msg = HEARTBEAT)
    (Hi : connection_info s !! c = Some ci)
    (Ha : active_connections s !! c = Some h) (Hh : send_raises h = false) :
  handle_message send_raises redis_raises pv c v now s =
  (upd_sent (fun l => l ++ [(h, mkMessage HEARTBEAT [("status", JStr "alive")])])
     (upd_info (<[c := set_last_heartbeat now ci]>) s), Ok tt).
Proof.
  unfold handle_message, try_except, bind at 1. rewrite Hparse. cbv beta iota.
  rewrite Hty. rewrite (handle_heartbeat_eq send_raises redis_raises c now s ci Hi).
  rewrite (send_to_connection_eq send_raises redis_raises). cbn [active_connections upd_info].
  rewrite Ha, Hh. reflexivity.
Qed.

Lemma heartbeat_frame_refreshes_connection_witness :
  handle_message never_raises_nat never_raises_key sample_validators "1_aaaaaaaa"
    (JObj [("type", JStr "heartbeat")]) 50 opened_a =
  (upd_sent (fun l => l ++ [(10, mkMessage HEARTBEAT [("status", JStr "alive")])])
     (upd_info (<["1_aaaaaaaa" := mkConnectionInfo "1_aaaaaaaa" 1 7 0 50
                                    [KStr "user:1:notifications"; KStr "tenant:broadcast"]]>) opened_a),
   Ok tt).
Proof.
  apply (heartbeat_frame_refreshes_connection never_raises_nat never_raises_key sample_validators "1_aaaaaaaa"
           (JObj [("type", JStr "heartbeat")]) 50 opened_a (mkMessage HEARTBEAT [])
           (mkConnectionInfo "1_aaaaaaaa" 1 7 0 0
              [KStr "user:1:notifications"; KStr "tenant:broadcast"]) 10);
    [reflexivity | reflexivity | vm_compute; reflexivity | vm_compute; reflexivity | reflexivity].
Defined.

(** X14: a heartbeat handled at time [now] on a working transport keeps
    the connection registered through a monitor scan at any time up to
    [now + 120] seconds. *)
Theorem heartbeat_protects_from_next_scan
    (send_raises : nat -> bool) (redis_raises : string -> bool)
    (c : string) (s : Manager) (ci : ConnectionInfo) (h : nat) (now now' : Z)
    (Hi : connection_info s !! c = Some ci)
    (Ha : active_connections s !! c = Some h) (Hh : send_raises h = false)
    (Hwin : (now' - heartbeat_timeout <= now)%Z) :
  let s1 := fst (handle_heartbeat send_raises redis_raises c now s) in
  let s2 := fst (heartbeat_scan redis_raises now' s1) in
  active_connections s2 !! c = Some h /\
  connection_info s2 !! c = Some (set_last_heartbeat now ci).
Proof.
  cbn zeta. rewrite (handle_heartbeat_eq send_raises redis_raises c now s ci Hi).
  rewrite (send_to_connection_eq send_raises redis_raises). cbn [active_connections upd_info].
  rewrite Ha, Hh. cbn [fst].
  set (s1 := upd_sent (fun l => l ++ [(h, mkMessage HEARTBEAT [("status", JStr "alive")])])
               (upd_info (<[c := set_last_heartbeat now ci]>) s)).
  assert (Hi1 : connection_info s1 !! c = Some (set_last_heartbeat now ci))
    by apply lookup_insert_eq.
  assert (Ha1 : active_connections s1 !! c = Some h) by exact Ha.
  rewrite heartbeat_scan_eq.
  destruct (disconnect_loop_notin redis_raises (timed_out (now' - heartbeat_timeout) s1) c s1)
    as [D1 D2].
  - apply timed_out_not_In. intros ci' Hci'. rewrite Hi1 in Hci'.
    injection Hci' as <-. cbn. exact Hwin.
  - rewrite D1, D2. split; assumption.
Qed.

Lemma heartbeat_protects_from_next_scan_witness :
  active_connections
    (fst (heartbeat_scan never_raises_key 150
       (fst (handle_heartbeat never_raises_nat never_raises_key "1_aaaaaaaa" 50 opened_a))))
    !! "1_aaaaaaaa" = Some 10.
Proof.
  destruct (heartbeat_protects_from_next_scan never_raises_nat never_raises_key "1_aaaaaaaa"
              opened_a (mkConnectionInfo "1_aaaaaaaa" 1 7 0 0
                          [KStr "user:1:notifications"; KStr "tenant:broadcast"]) 10 50 150)
    as [H1 _].
  - vm_compute. reflexivity.
  - vm_compute. reflexivity.
  - reflexivity.
  - unfold heartbeat_timeout. lia.
  - exact H1.
Defined.

(** X15: a scan of the heartbeat monitor leaves alone every connection
    that has not timed out (no Connection record, or a last heartbeat no
    older than two minutes): its websocket and Connection record are
    kept as they were. *)
Theorem heartbeat_scan_keeps_live_connections
    (redis_raises : string -> bool) (now : Z) (s : Manager) (c : string)
    (Hlive : forall ci, connection_info s !! c = Some ci ->
             (now - heartbeat_timeout <= ci_last_heartbeat ci)%Z) :
  active_connections (fst (heartbeat_scan redis_raises now s)) !! c = active_connections s !! c /\
  connection_info (fst (heartbeat_scan redis_raises now s)) !! c = connection_info s !! c.
Proof.
  rewrite heartbeat_scan_eq.
  apply disconnect_loop_notin, timed_out_not_In, Hlive.
Qed.

Lemma heartbeat_scan_keeps_live_connections_witness :
  active_connections (fst (heartbeat_scan never_raises_key 100 opened_a)) !! "1_aaaaaaaa" =
  Some 10.
Proof.
  destruct (heartbeat_scan_keeps_live_connections never_raises_key 100 opened_a "1_aaaaaaaa")
    as [H1 _].
  - intros ci Hci. vm_compute in Hci. injection Hci as <-. cbn. unfold heartbeat_timeout. lia.
  - rewrite H1. vm_compute. reflexivity.
Defined.

(** X16: [disconnect] of a registered id lowers [total_connections] of
    [get_connection_stats] by one; [disconnect] of an id that is not in
    [active_connections] leaves every statistic unchanged. *)
Theorem disconnect_connection_stats
    (redis_raises : string -> bool) (c : string) (s : Manager) :
  let st := get_connection_stats s in
  let st' := get_connection_stats (fst (disconnect redis_raises c s)) in
  match active_connections s !! c with
  | Some _ => total_connections st' = pred (total_connections st)
  | None => st' = st
  end.
Proof.
  cbn zeta. destruct (active_connections s !! c) as [h|] eqn:Ea.
  - cbn [get_connection_stats total_connections]. rewrite disconnect_active.
    rewrite map_size_delete, Ea. reflexivity.
  - rewrite (disconnect_inactive redis_raises c s Ea). reflexivity.
Qed.

(** X17: [connect] with a fresh id and a working transport raises
    [total_connections] by one, raises [users_connected]
    ([tenants_active]) by one exactly when the user (tenant) had no
    index entry yet, and leaves [active_channels] and
    [redis_subscriptions] unchanged. *)
Theorem connect_connection_stats
    (send_raises : nat -> bool) (redis_raises : string -> bool)
    (h : nat) (u t : Z) (suffix : string) (now : Z) (s : Manager)
    (Hfresh : active_connections s !! connection_id_of u suffix = None)
    (Hh : send_raises h = false) :
  let st := get_connection_stats s in
  let st' := get_connection_stats (fst (connect send_raises redis_raises h u t suffix now s)) in
  total_connections st' = S (total_connections st) /\
  users_connected st' =
    (match user_connections s !! u with Some _ => id | None => S end) (users_connected st) /\
  tenants_active st' =
    (match tenant_connections s !! t with Some _ => id | None => S end) (tenants_active st) /\
  active_channels st' = active_channels st /\
  redis_subscriptions st' = redis_subscriptions st.
Proof.
  cbn zeta. destruct (connect_eq send_raises redis_raises h u t suffix now s) as [ks E].
  rewrite E. cbn [fst]. rewrite (send_to_connection_eq send_raises redis_raises).
  cbn [active_connections upd_redis_keys upd_tenants upd_users upd_info upd_active].
  rewrite lookup_insert_eq, Hh. cbn.
  unfold add_index. rewrite !map_size_insert, Hfresh.
  split; [reflexivity |]. split; [reflexivity |]. split; [reflexivity |].
  split; reflexivity.
Qed.

Lemma connect_connection_stats_witness :
  total_connections (get_connection_stats
    (fst (connect never_raises_nat never_raises_key 11 2 7 "bbbbbbbb" 0 opened_a))) = 2.
Proof.
  destruct (connect_connection_stats never_raises_nat never_raises_key 11 2 7 "bbbbbbbb" 0
              opened_a) as [H1 _].
  - vm_compute. reflexivity.
  - reflexivity.
  - rewrite H1. vm_compute. reflexivity.
Defined.

(** X18: [connect] of a fresh id followed by [disconnect] of the returned
    id (working transport) restores the registry and the user and tenant
    indexes, but leaves the Redis record behind: [_store_connection_in_redis]
    writes through [RedisClient.set], which stores the key under
    ["tenant:<tenant_id>:ws_connection:<id>"], while
    [_remove_connection_from_redis] deletes the unprefixed
    ["ws_connection:<id>"], which was never stored.  So the end state is
    the starting one plus the CONNECT acknowledgement that was sent and,
    when the Redis write succeeded, the prefixed key.  The starting state
    satisfies the registry invariant, as every reachable state does (X1,
    X2). *)
Theorem connect_then_disconnect_leaks_redis_key
    (send_raises : nat -> bool) (redis_raises : string -> bool)
    (h : nat) (u t : Z) (suffix : string) (now : Z) (s : Manager)
    (Hok : registry_ok s)
    (Hh : send_raises h = false)
    (Ha : active_connections s !! connection_id_of u suffix = None)
    (Hu : connection_id_of u suffix ∉ dd_get (user_connections s) u)
    (Ht : connection_id_of u suffix ∉ dd_get (tenant_connections s) t)
    (Hk : "ws_connection:" +:+ connection_id_of u suffix ∉ redis_keys s) :
  let c := connection_id_of u suffix in
  let stored := get_tenant_key t ("ws_connection:" +:+ c) in
  fst (disconnect redis_raises c (fst (connect send_raises redis_raises h u t suffix now s))) =
  upd_sent (fun l => l ++ [(h, connect_ack_message c u t)])
    (upd_redis_keys (fun ks => if redis_raises stored then ks else {[stored]} ∪ ks) s).
Proof.
  cbn zeta. set (c := connection_id_of u suffix) in *.
  destruct Hok as (Hd & Hus & Hts).
  assert (Hi : connection_info s !! c = None).
  { destruct (connection_info s !! c) eqn:E; [| reflexivity].
    destruct (proj2 (Hd c) (mk_is_Some _ _ E)) as [? Hx]. congruence. }
  rewrite (connect_exact send_raises redis_raises h u t suffix now s). fold c. cbn [fst].
  rewrite (send_to_connection_eq send_raises redis_raises).
  cbn [active_connections upd_redis_keys upd_tenants upd_users upd_info upd_active].
  rewrite lookup_insert_eq, Hh. cbn [fst].
  rewrite (disconnect_registered_exact redis_raises c h (mkConnectionInfo c u t now now []))
    by (cbn; apply lookup_insert_eq). cbn [fst].
  apply Manager_ext.
  - exact (delete_insert_id (active_connections s) c h Ha).
  - exact (delete_insert_id (connection_info s) c _ Hi).
  - exact (index_round_trip (user_connections s) u c Hus Hu).
  - exact (index_round_trip (tenant_connections s) t c Hts Ht).
  - reflexivity.
  - reflexivity.
  - reflexivity.
  - reflexivity.
  - assert (Hne : get_tenant_key t ("ws_connection:" +:+ c) <> "ws_connection:" +:+ c)
      by (unfold get_tenant_key; cbn; discriminate).
    cbn.
    destruct (redis_raises ("ws_connection:" +:+ c));
      destruct (redis_raises (get_tenant_key t ("ws_connection:" +:+ c))); try reflexivity;
      apply set_eq; intros x; set_solver.
  - reflexivity.
Qed.

Lemma connect_then_disconnect_leaks_redis_key_witness :
  fst (disconnect never_raises_key "2_bbbbbbbb"
         (fst (connect never_raises_nat never_raises_key 11 2 7 "bbbbbbbb" 0 opened_a))) =
  upd_sent (fun l => l ++ [(11, connect_ack_message "2_bbbbbbbb" 2 7)])
    (upd_redis_keys (fun ks => {["tenant:7:ws_connection:2_bbbbbbbb"]} ∪ ks) opened_a).
Proof.
  apply (connect_then_disconnect_leaks_redis_key never_raises_nat never_raises_key
           11 2 7 "bbbbbbbb" 0 opened_a).
  - apply (preserves_endpoint_open never_raises_nat never_raises_key 10 1 7 "aaaaaaaa" 0 []
             empty_manager registry_ok_empty).
  - reflexivity.
  - vm_compute. reflexivity.
  - apply (proj1 (bool_decide_eq_false _)). vm_compute. reflexivity.
  - apply (proj1 (bool_decide_eq_false _)). vm_compute. reflexivity.
  - apply (proj1 (bool_decide_eq_false _)). vm_compute. reflexivity.
Defined.

(** X19: a bus message is dropped without any effect when the pub/sub
    message is not of type ["message"], when its data is not valid JSON,
    or when the decoded data does not make a [WebSocketNotification]: the
    state is unchanged and no exception leaves the listener loop. *)
Theorem redis_message_dropped
    (send_raises : nat -> bool) (redis_raises : string -> bool) (pv : Validators)
    (ch ptype : string) (data : option JVal) (s : Manager)
    (Hdrop : ptype <> "message" \/ data = None \/
             exists v e, data = Some v /\ snd (parse_notification pv v s) = Raised e) :
  redis_message_received send_raises redis_raises pv ch ptype data s = (s, Ok tt).
Proof.
  unfold redis_message_received.
  destruct (String.eqb_spec ptype "message") as [->|Hp]; [| reflexivity].
  destruct Hdrop as [Hp|[->|(v & e & -> & Hv)]]; [congruence | reflexivity |].
  unfold try_except, bind, ret. rewrite parse_notification_state, Hv. reflexivity.
Qed.

Lemma redis_message_dropped_witness :
  redis_message_received never_raises_nat never_raises_key sample_validators "tenant:broadcast" "message"
    (Some (JObj [("type", JStr "deal_updated"); ("channel", JStr "tenant:broadcast")]))
    opened_a_b = (opened_a_b, Ok tt).
Proof.
  apply (redis_message_dropped never_raises_nat never_raises_key sample_validators "tenant:broadcast" "message"
           (Some (JObj [("type", JStr "deal_updated"); ("channel", JStr "tenant:broadcast")]))
           opened_a_b).
  right. right. exists (JObj [("type", JStr "deal_updated"); ("channel", JStr "tenant:broadcast")]),
    ValidationError. split; reflexivity.
Defined.

(** X20: a bus message on the listener's channel [ch] that decodes to a
    notification [n] is sent to every connection subscribed to [ch], with
    transport failures isolated as in [send_to_channel]; the channel named
    inside the notification plays no part. *)
Theorem redis_message_fans_out_on_listener_channel
    (send_raises : nat -> bool) (redis_raises : string -> bool) (pv : Validators)
    (ch : string) (v : JVal) (n : WebSocketNotification) (s : Manager)
    (Hv : snd (parse_notification pv v s) = Ok n) :
  fan_out_isolated send_raises (dd_get (channel_subscriptions s) ch) (notification_message n) s
    (redis_message_received send_raises redis_raises pv ch "message" (Some v) s).
Proof.
  pose proof (send_to_all_isolated send_raises redis_raises
    (dd_get (channel_subscriptions s) ch) (notification_message n) s) as Hf.
  unfold redis_message_received. rewrite String.eqb_refl.
  unfold try_except, bind at 1, ret at 1. unfold bind at 1.
  rewrite parse_notification_state, Hv.
  change (send_to_channel send_raises redis_raises ch n s) with
    (send_to_all send_raises redis_raises (dd_get (channel_subscriptions s) ch)
       (notification_message n) s).
  destruct (send_to_all send_raises redis_raises (dd_get (channel_subscriptions s) ch)
              (notification_message n) s) as [s' r].
  destruct Hf as [Hr Hrest]. cbn [snd] in Hr. subst r.
  split; [reflexivity | exact Hrest].
Qed.

Lemma redis_message_fans_out_on_listener_channel_witness :
  snd (parse_notification sample_validators (JObj [("type", JStr "deal_updated"); ("channel", JStr "deals");
                                 ("data", JObj [])]) opened_a_b) =
    Ok (mkNotification "deal_updated" "deals" []) /\
  fan_out_isolated never_raises_nat (dd_get (channel_subscriptions opened_a_b) "tenant:broadcast")
    (notification_message (mkNotification "deal_updated" "deals" [])) opened_a_b
    (redis_message_received never_raises_nat never_raises_key sample_validators "tenant:broadcast" "message"
       (Some (JObj [("type", JStr "deal_updated"); ("channel", JStr "deals");
                    ("data", JObj [])])) opened_a_b).
Proof.
  split; [reflexivity |].
  apply (redis_message_fans_out_on_listener_channel never_raises_nat never_raises_key sample_validators
           "tenant:broadcast"
           (JObj [("type", JStr "deal_updated"); ("channel", JStr "deals"); ("data", JObj [])])
           (mkNotification "deal_updated" "deals" []) opened_a_b).
  reflexivity.
Defined.

(** X21: [POST /ws/broadcast/{tenant_id}] with a [tenant_id] that is not a
    UUID answers 400 and sends nothing: the state is unchanged. *)
Theorem broadcast_to_tenant_invalid_uuid
    (send_raises : nat -> bool) (redis_raises : string -> bool)
    (uuid_of_string : string -> option Z)
    (tenant_id : string) (message : list (string * JVal)) (s : Manager)
    (Hu : uuid_of_string tenant_id = None) :
  broadcast_to_tenant send_raises redis_raises uuid_of_string tenant_id message s =
  (s, Ok BadRequest).
Proof. unfold broadcast_to_tenant, try_except. rewrite Hu. reflexivity. Qed.

Lemma broadcast_to_tenant_invalid_uuid_witness :
  broadcast_to_tenant never_raises_nat never_raises_key uuid_only_7 "seven"
    [("text", JStr "hi")] opened_a_b = (opened_a_b, Ok BadRequest).
Proof.
  apply broadcast_to_tenant_invalid_uuid. reflexivity.
Defined.

(** X22: with a valid UUID the broadcast always answers success, whatever
    the transports do: the ["admin_broadcast"] notification goes to every
    connection of the tenant, a connection whose send fails is torn down,
    and the others stay registered. *)
Theorem broadcast_to_tenant_valid_uuid
    (send_raises : nat -> bool) (redis_raises : string -> bool)
    (uuid_of_string : string -> option Z)
    (tenant_id : string) (t : Z) (message : list (string * JVal)) (s : Manager)
    (Hu : uuid_of_string tenant_id = Some t) :
  snd (broadcast_to_tenant send_raises redis_raises uuid_of_string tenant_id message s) =
    Ok BroadcastSent /\
  fan_out_isolated send_raises (dd_get (tenant_connections s) t)
    (notification_message (mkNotification "admin_broadcast" "tenant:broadcast" message)) s
    (fst (broadcast_to_tenant send_raises redis_raises uuid_of_string tenant_id message s),
     Ok tt).
Proof.
  pose proof (send_to_all_isolated send_raises redis_raises (dd_get (tenant_connections s) t)
    (notification_message (mkNotification "admin_broadcast" "tenant:broadcast" message)) s)
    as Hf.
  unfold broadcast_to_tenant, try_except. rewrite Hu. unfold bind, ret.
  change (send_to_tenant send_raises redis_raises t
            (mkNotification "admin_broadcast" "tenant:broadcast" message) s) with
    (send_to_all send_raises redis_raises (dd_get (tenant_connections s) t)
       (notification_message (mkNotification "admin_broadcast" "tenant:broadcast" message)) s).
  destruct (send_to_all send_raises redis_raises (dd_get (tenant_connections s) t)
              (notification_message (mkNotification "admin_broadcast" "tenant:broadcast" message))
              s) as [s' r].
  destruct Hf as [Hr Hrest]. cbn [snd] in Hr. subst r.
  split; [reflexivity |]. split; [reflexivity | exact Hrest].
Qed.

Lemma broadcast_to_tenant_valid_uuid_witness :
  snd (broadcast_to_tenant never_raises_nat never_raises_key uuid_only_7 "7"
         [("text", JStr "hi")] opened_a_b) = Ok BroadcastSent /\
  fan_out_isolated never_raises_nat (dd_get (tenant_connections opened_a_b) 7%Z)
    (notification_message (mkNotification "admin_broadcast" "tenant:broadcast"
                             [("text", JStr "hi")])) opened_a_b
    (fst (broadcast_to_tenant never_raises_nat never_raises_key uuid_only_7 "7"
            [("text", JStr "hi")] opened_a_b), Ok tt).
Proof.
  apply (broadcast_to_tenant_valid_uuid never_raises_nat never_raises_key uuid_only_7
           "7" 7%Z [("text", JStr "hi")] opened_a_b).
  reflexivity.
Defined.

(** X23: [disconnect] of one id leaves every other id as it was: its
    websocket and [ConnectionInfo] entries, its membership in the user,
    tenant and channel index sets, and the messages sent so far. *)
Theorem disconnect_leaves_other_connections
    (redis_raises : string -> bool) (c c' : string) (s : Manager) (Hne : c' <> c) :
  let s' := fst (disconnect redis_raises c s) in
  active_connections s' !! c' = active_connections s !! c' /\
  connection_info s' !! c' = connection_info s !! c' /\
  (forall u, c' ∈ dd_get (user_connections s') u <-> c' ∈ dd_get (user_connections s) u) /\
  (forall t, c' ∈ dd_get (tenant_connections s') t <-> c' ∈ dd_get (tenant_connections s) t) /\
  (forall ch, c' ∈ dd_get (channel_subscriptions s') ch <->
              c' ∈ dd_get (channel_subscriptions s) ch) /\
  sent s' = sent s.
Proof.
  cbn zeta.
  destruct (disconnect_other redis_raises c c' s Hne) as [D1 D2].
  destruct (disconnect_keeps_other_members redis_raises c c' s Hne) as (M1 & M2 & M3).
  split; [exact D1 |]. split; [exact D2 |]. split; [exact M1 |].
  split; [exact M2 |]. split; [exact M3 |]. apply disconnect_sent.
Qed.

Lemma disconnect_leaves_other_connections_witness :
  let s' := fst (disconnect never_raises_key "1_aaaaaaaa" opened_a_b) in
  active_connections s' !! "2_bbbbbbbb" = active_connections opened_a_b !! "2_bbbbbbbb" /\
  connection_info s' !! "2_bbbbbbbb" = connection_info opened_a_b !! "2_bbbbbbbb" /\
  (forall u, "2_bbbbbbbb" ∈ dd_get (user_connections s') u <->
             "2_bbbbbbbb" ∈ dd_get (user_connections opened_a_b) u) /\
  (forall t, "2_bbbbbbbb" ∈ dd_get (tenant_connections s') t <->
             "2_bbbbbbbb" ∈ dd_get (tenant_connections opened_a_b) t) /\
  (forall ch, "2_bbbbbbbb" ∈ dd_get (channel_subscriptions s') ch <->
              "2_bbbbbbbb" ∈ dd_get (channel_subscriptions opened_a_b) ch) /\
  sent s' = sent opened_a_b.
Proof.
  apply (disconnect_leaves_other_connections never_raises_key "1_aaaaaaaa" "2_bbbbbbbb"
           opened_a_b).
  discriminate.
Defined.

(** X24: over a working transport, opening a connection in
    [websocket_endpoint] returns the new id and sends, in this order, the
    CONNECT acknowledgement, the acknowledgement of the subscription to
    ["user:{user_id}:notifications"], that of ["tenant:broadcast"], then
    one NOTIFICATION per queued offline notification, in queue order; the
    connection's subscriptions are then exactly these two channels. *)
Theorem endpoint_open_message_order
    (send_raises : nat -> bool) (redis_raises : string -> bool)
    (h : nat) (u t : Z) (suffix : string) (now : Z) (offline : list JVal) (s : Manager)
    (Hh : send_raises h = false) :
  let c := connection_id_of u suffix in
  let uch := "user:" +:+ pretty u +:+ ":notifications" in
  let r := endpoint_open send_raises redis_raises h u t suffix now offline s in
  snd r = Ok c /\
  sent (fst r) = sent s ++
    [(h, connect_ack_message c u t); (h, ack_message "subscribe" (JStr uch));
     (h, ack_message "subscribe" (JStr "tenant:broadcast"))] ++
    map (fun n => (h, offline_message n)) offline /\
  option_map ci_subscriptions (connection_info (fst r) !! c) =
    Some [KStr uch; KStr "tenant:broadcast"].
Proof.
  cbn zeta.
  set (c := connection_id_of u suffix).
  set (uch := "user:" +:+ pretty u +:+ ":notifications").
  destruct (connect_steps send_raises redis_raises h u t suffix now s Hh)
    as (E1 & A1 & I1 & S1).
  fold c in E1, A1, I1, S1.
  set (s1 := fst (connect send_raises redis_raises h u t suffix now s)) in *.
  destruct (subscribe_steps send_raises redis_raises c (JStr uch) (KStr uch) h _ s1
              Hh eq_refl A1 I1) as (E2 & A2 & I2 & S2).
  set (s2 := fst (subscribe_to_channel send_raises redis_raises c (JStr uch) s1)) in *.
  destruct (subscribe_steps send_raises redis_raises c (JStr "tenant:broadcast")
              (KStr "tenant:broadcast") h _ s2 Hh eq_refl A2 I2) as (E3 & A3 & I3 & S3).
  set (s3 := fst (subscribe_to_channel send_raises redis_raises c (JStr "tenant:broadcast") s2))
    in *.
  pose proof (offline_loop send_raises redis_raises c h offline s3 A3 Hh) as E4.
  unfold offline_message in E4.
  unfold endpoint_open.
  rewrite (bind_ok_eq _ _ _ _ _ E1). cbv beta.
  rewrite (bind_ok_eq _ _ _ _ _ E2). cbv beta.
  rewrite (bind_ok_eq _ _ _ _ _ E3). cbv beta.
  rewrite (bind_ok_eq _ _ _ _ _ E4). unfold ret.
  cbn [fst snd]. split; [reflexivity |].
  unfold upd_sent. cbn [sent connection_info].
  rewrite S3, S2, S1, I3. split.
  - rewrite <- !app_assoc. reflexivity.
  - reflexivity.
Qed.

Lemma endpoint_open_message_order_witness :
  let c := connection_id_of 1 "aaaaaaaa" in
  let uch := "user:" +:+ pretty 1%Z +:+ ":notifications" in
  let r := endpoint_open never_raises_nat never_raises_key 10 1 7 "aaaaaaaa" 0
             [JNum 5] empty_manager in
  snd r = Ok c /\
  sent (fst r) = sent empty_manager ++
    [(10, connect_ack_message c 1 7); (10, ack_message "subscribe" (JStr uch));
     (10, ack_message "subscribe" (JStr "tenant:broadcast"))] ++
    map (fun n => (10, offline_message n)) [JNum 5] /\
  option_map ci_subscriptions (connection_info (fst r) !! c) =
    Some [KStr uch; KStr "tenant:broadcast"].
Proof.
  apply (endpoint_open_message_order never_raises_nat never_raises_key 10 1 7 "aaaaaaaa" 0
           [JNum 5] empty_manager).
  reflexivity.
Defined.

(** X25: a [subscribe] frame from a registered connection whose channel
    is truthy and hashable, such as the number [5], is handled exactly as
    [subscribe_to_channel] of that value: the value is used as the dict
    key (see X8), and the frame's handling returns normally. *)
Theorem handle_message_subscribe_frame
    (send_raises : nat -> bool) (redis_raises : string -> bool) (pv : Validators)
    (c : string) (v : JVal) (now : Z) (s : Manager) (msg : WebSocketMessage)
    (ch : JVal) (k : ChanKey) (ci : ConnectionInfo)
    (Hparse : parse_message pv v s = (s, Ok msg)) (Hty : msg_type msg = SUBSCRIBE)
    (Hch : dict_get "channel" (msg_data msg) = Some ch) (Htr : truthy ch = true)
    (Hk : chan_key ch = Some k) (Hi : connection_info s !! c = Some ci) :
  handle_message send_raises redis_raises pv c v now s =
  (fst (subscribe_to_channel send_raises redis_raises c ch s), Ok tt).
Proof.
  unfold handle_message, try_except, bind at 1. rewrite Hparse. cbv beta iota.
  rewrite Hty, Hch.
  rewrite (channel_action_truthy_ok _ c ch s _ true Htr
             (subscribe_to_channel_eq send_raises redis_raises c ch k s ci Hi Hk)).
  rewrite (subscribe_to_channel_eq send_raises redis_raises c ch k s ci Hi Hk).
  reflexivity.
Qed.

Lemma handle_message_subscribe_frame_witness :
  let v := JObj [("type", JStr "subscribe"); ("data", JObj [("channel", JNum 5)])] in
  let s' := fst (subscribe_to_channel never_raises_nat never_raises_key "1_aaaaaaaa"
                   (JNum 5) opened_a) in
  handle_message never_raises_nat never_raises_key sample_validators "1_aaaaaaaa" v 1 opened_a =
    (s', Ok tt) /\
  "1_aaaaaaaa" ∈ dd_get (channel_subscriptions s') (KInt 5) /\
  last (sent s') = Some (10, ack_message "subscribe" (JNum 5)).
Proof.
  split.
  - apply (handle_message_subscribe_frame never_raises_nat never_raises_key sample_validators
             "1_aaaaaaaa" (JObj [("type", JStr "subscribe"); ("data", JObj [("channel", JNum 5)])])
             1 opened_a (mkMessage SUBSCRIBE [("channel", JNum 5)]) (JNum 5) (KInt 5)
             (mkConnectionInfo "1_aaaaaaaa" 1 7 0 0
                [KStr "user:1:notifications"; KStr "tenant:broadcast"]));
      [reflexivity | reflexivity | reflexivity | reflexivity | reflexivity
      | vm_compute; reflexivity].
  - split; [apply (bool_decide_unpack _); vm_compute; exact I | vm_compute; reflexivity].
Defined.

(** X26: a [subscribe] or [unsubscribe] frame from a registered connection
    whose channel is a non-empty list or object (truthy, but no dict key)
    makes the operation raise [TypeError] before any change; on a working
    transport the connection gets exactly one [error] frame with code
    [message_error], and nothing else changes. *)
Theorem handle_message_unhashable_channel_error
    (send_raises : nat -> bool) (redis_raises : string -> bool) (pv : Validators)
    (c : string) (v : JVal) (now : Z) (s : Manager) (msg : WebSocketMessage)
    (ch : JVal) (ci : ConnectionInfo) (h : nat)
    (Hparse : parse_message pv v s = (s, Ok msg))
    (Hty : msg_type msg = SUBSCRIBE \/ msg_type msg = UNSUBSCRIBE)
    (Hch : dict_get "channel" (msg_data msg) = Some ch) (Htr : truthy ch = true)
    (Hk : chan_key ch = None) (Hi : connection_info s !! c = Some ci)
    (Ha : active_connections s !! c = Some h) (Hh : send_raises h = false) :
  handle_message send_raises redis_raises pv c v now s =
  (upd_sent (fun l => l ++ [(h, mkMessage ERROR
                                  (websocket_error_dict "message_error" "type error"))]) s,
   Ok tt).
Proof.
  unfold handle_message, try_except, bind at 1. rewrite Hparse. cbv beta iota.
  destruct Hty as [E|E]; rewrite E, Hch.
  - rewrite (channel_action_truthy_raises _ c ch s s TypeError Htr
               (subscribe_to_channel_unhashable send_raises redis_raises c ch s ci Hi Hk)).
    rewrite send_error_eq, send_to_connection_eq, Ha, Hh. reflexivity.
  - rewrite (channel_action_truthy_raises _ c ch s s TypeError Htr
               (unsubscribe_from_channel_unhashable send_raises redis_raises c ch s ci Hi Hk)).
    rewrite send_error_eq, send_to_connection_eq, Ha, Hh. reflexivity.
Qed.

Lemma handle_message_unhashable_channel_error_witness :
  handle_message never_raises_nat never_raises_key sample_validators "1_aaaaaaaa"
    (JObj [("type", JStr "subscribe"); ("data", JObj [("channel", JArr [JStr "deals"])])])
    1 opened_a =
  (upd_sent (fun l => l ++ [(10, mkMessage ERROR
                                   (websocket_error_dict "message_error" "type error"))])
     opened_a, Ok tt).
Proof.
  apply (handle_message_unhashable_channel_error never_raises_nat never_raises_key
           sample_validators "1_aaaaaaaa"
           (JObj [("type", JStr "subscribe"); ("data", JObj [("channel", JArr [JStr "deals"])])])
           1 opened_a (mkMessage SUBSCRIBE [("channel", JArr [JStr "deals"])])
           (JArr [JStr "deals"])
           (mkConnectionInfo "1_aaaaaaaa" 1 7 0 0
              [KStr "user:1:notifications"; KStr "tenant:broadcast"]) 10);
    [reflexivity | left; reflexivity | reflexivity | reflexivity | reflexivity
    | vm_compute; reflexivity | vm_compute; reflexivity | reflexivity].
Defined.

(** X27: a frame whose [message_id] is present and neither [null] nor a
    string (a number, a boolean, a list, an object) is not a valid
    [WebSocketMessage]: building it raises [ValidationError], whatever the
    other fields and whatever the validators of [datetime], [int] and
    [UUID] accept. *)
Theorem parse_message_rejects_non_string_message_id
    (pv : Validators) (kvs : list (string * JVal)) (w : JVal) (s : Manager)
    (Hid : dict_get "message_id" kvs = Some w)
    (Hw : match w with JNull | JStr _ => False | _ => True end) :
  parse_message pv (JObj kvs) s = (s, Raised ValidationError).
Proof.
  unfold parse_message. cbv zeta. rewrite Hid.
  assert (Hf : optional_ok optional_str_ok (Some w) = false)
    by (destruct w; [contradiction | reflexivity .. | contradiction | reflexivity | reflexivity]).
  rewrite Hf, Bool.andb_false_r.
  repeat case_match; reflexivity.
Qed.

Lemma parse_message_rejects_non_string_message_id_witness :
  parse_message sample_validators
    (JObj [("type", JStr "heartbeat"); ("message_id", JNum 5)]) opened_a =
  (opened_a, Raised ValidationError).
Proof.
  apply (parse_message_rejects_non_string_message_id sample_validators
           [("type", JStr "heartbeat"); ("message_id", JNum 5)] (JNum 5) opened_a);
    [reflexivity | exact I].
Defined.
